(** * IMOD xcorr prealignment protocol: transformation-matrix pipeline

    Shallow embedding of [ProtImodXcorr.formatTransformationMatrix] and of
    the output-generation half of [ProtImodXcorr.computeXcorrStep]
    (imod/protocols/protocol_xcorr.py), with the properties of the
    affine-stack parser and of the stack applier proved about them. *)

From stdpp Require Import base list strings gmap pretty.
From Stdlib Require Import ZArith Ascii SpecFloat.
From Stdlib Require String.

(** ** Python text primitives

    Text is a [string] whose characters are code points below 256. *)
Module PyStr.
Definition LF : ascii := "010"%char.
Definition CR : ascii := "013"%char.

(** [str.isspace] on one character: TAB..CR, FS..US, SPACE, NEL, NBSP. *)
Definition isspace (c : ascii) : bool :=
  let n := N_of_ascii c in
  ((9 <=? n) && (n <=? 13) || (28 <=? n) && (n <=? 32)
   || (n =? 133) || (n =? 160))%N.

(** The word collected so far (kept reversed), emitted when it ends. *)
Definition flush (cur : string) : list string :=
  match cur with
  | EmptyString => []
  | _ => [String.rev cur]
  end.

Fixpoint split_go (cur : string) (s : string) : list string :=
  match s with
  | EmptyString => flush cur
  | String c s' =>
      if isspace c then flush cur ++ split_go EmptyString s'
      else split_go (String c cur) s'
  end.

(** [s.split()] with no separator: maximal runs of non-whitespace. *)
Definition split (s : string) : list string := split_go EmptyString s.

(** Text mode with [newline=None]: CR LF and lone CR are read as LF. *)
Fixpoint universal_newlines (s : string) : string :=
  match s with
  | EmptyString => EmptyString
  | String c s' =>
      if Ascii.eqb c CR then
        String LF (match s' with
                   | String c' s'' =>
                       if Ascii.eqb c' LF then universal_newlines s''
                       else universal_newlines s'
                   | EmptyString => EmptyString
                   end)
      else String c (universal_newlines s')
  end.

Fixpoint readlines_go (cur : string) (s : string) : list string :=
  match s with
  | EmptyString => flush cur
  | String c s' =>
      if Ascii.eqb c LF
      then String.rev (String c cur) :: readlines_go EmptyString s'
      else readlines_go (String c cur) s'
  end.

(** [f.readlines()] of a text file: lines keep their terminating LF. *)
Definition readlines (content : string) : list string :=
  readlines_go EmptyString (universal_newlines content).

Fixpoint lstrip (s : string) : string :=
  match s with
  | String c s' => if isspace c then lstrip s' else s
  | EmptyString => s
  end.

Definition strip (s : string) : string :=
  String.rev (lstrip (String.rev (lstrip s))).

Fixpoint all_space (s : string) : bool :=
  match s with
  | EmptyString => true
  | String c s' => isspace c && all_space s'
  end.
End PyStr.

(** ** Python's [float(str)] on IEEE binary64

    The builtin is not part of the repository; this is its instance used
    for concrete files.  Values are [spec_float]s of precision 53 and
    maximal exponent 1024, decimal literals are rounded to nearest even. *)
Module PyFloat.
Definition float : Type := spec_float.
Definition prec : Z := 53.
Definition emax : Z := 1024.

(** The binary64 number [m * 2^e], rounded. *)
Definition dyadic (m e : Z) : float := binary_normalize prec emax m e false.

(** The binary64 number nearest to [(-1)^neg * m * 10^e]. *)
Definition of_decimal (neg : bool) (m e : Z) : float :=
  match m with
  | Zpos p =>
      if (0 <=? e)%Z
      then binary_round prec emax neg (p * Z.to_pos (10 ^ e)) 0
      else SFdiv prec emax (S754_finite neg p 0)
                           (S754_finite false (Z.to_pos (10 ^ (- e))) 0)
  | _ => S754_zero neg
  end.

Definition is_digit (c : ascii) : bool :=
  let n := N_of_ascii c in ((48 <=? n) && (n <=? 57))%N.

Definition digit_val (c : ascii) : Z := Z.of_N (N_of_ascii c) - 48.

Definition lower (c : ascii) : ascii :=
  let n := N_of_ascii c in
  if ((65 <=? n) && (n <=? 90))%N then ascii_of_N (n + 32) else c.

Fixpoint lower_string (s : string) : string :=
  match s with
  | EmptyString => EmptyString
  | String c s' => String (lower c) (lower_string s')
  end.

(** An underscore is accepted only between two digits. *)
Fixpoint remove_underscores (prev : ascii) (s : string) : option string :=
  match s with
  | EmptyString => if Ascii.eqb prev "_" then None else Some EmptyString
  | String c s' =>
      if Ascii.eqb c "_" then
        if is_digit prev then remove_underscores c s' else None
      else if Ascii.eqb prev "_" && negb (is_digit c) then None
      else String c <$> remove_underscores c s'
  end.

Fixpoint read_digits (acc : Z) (n : Z) (s : string) : Z * Z * string :=
  match s with
  | String c s' =>
      if is_digit c then read_digits (10 * acc + digit_val c) (n + 1) s'
      else (acc, n, s)
  | EmptyString => (acc, n, s)
  end.

Definition read_sign (s : string) : bool * string :=
  match s with
  | String "-" s' => (true, s')
  | String "+" s' => (false, s')
  | _ => (false, s)
  end.

Definition parse_exponent (s : string) : option Z :=
  match s with
  | EmptyString => Some 0%Z
  | String c s' =>
      if Ascii.eqb (lower c) "e" then
        let '(neg, s1) := read_sign s' in
        match read_digits 0 0 s1 with
        | (x, n, EmptyString) =>
            if (n =? 0)%Z then None else Some (if neg then (- x)%Z else x)
        | _ => None
        end
      else None
  end.

Definition parse_number (neg : bool) (s : string) : option float :=
  let '(m1, n1, s1) := read_digits 0 0 s in
  let '(m2, n2, s2) :=
    match s1 with
    | String "." s' => read_digits m1 0 s'
    | _ => (m1, 0%Z, s1)
    end in
  if (n1 + n2 =? 0)%Z then None
  else x ← parse_exponent s2; Some (of_decimal neg m2 (x - n2)).

Definition parse_inf_or_nan (neg : bool) (s : string) : option float :=
  let l := lower_string s in
  if bool_decide (l = "inf" ∨ l = "infinity") then Some (S754_infinity neg)
  else if bool_decide (l = "nan") then Some S754_nan
  else None.

(** [float(s)]: [None] stands for [ValueError]. *)
Definition of_string (s : string) : option float :=
  t ← remove_underscores "000" (PyStr.strip s);
  let '(neg, body) := read_sign t in
  match parse_number neg body with
  | Some x => Some x
  | None => parse_inf_or_nan neg body
  end.

Definition zero : float := S754_zero false.
Definition one : float := dyadic 1 0.
End PyFloat.

(** ** Exceptions *)
Inductive exn : Type :=
  | IndexError
  | ValueError
  | FileNotFoundError.

Inductive result (A : Type) : Type :=
  | Ok (a : A)
  | Raise (e : exn).
Arguments Ok {A} a.
Arguments Raise {A} e.

#[global] Instance result_ret : MRet result := @Ok.
#[global] Instance result_bind : MBind result := λ A B f r,
  match r with
  | Ok a => f a
  | Raise e => Raise e
  end.

#[global] Instance exn_eq_dec : EqDecision exn.
Proof. solve_decision. Defined.

(** ** Rank-3 numpy arrays in C order *)
Module Np.
Section Ndarray.
Context {float : Type}.

Record ndarray : Type := Ndarray {
  dim0 : nat;
  dim1 : nat;
  dim2 : nat;
  buf : list float
}.

Definition offset (A : ndarray) (r c i : nat) : nat :=
  (r * dim1 A + c) * dim2 A + i.

Definition in_bounds (A : ndarray) (r c i : nat) : bool :=
  (r <? dim0 A) && (c <? dim1 A) && (i <? dim2 A).

(** [np.empty([d0, d1, d2])]: the cells hold whatever the allocated
    memory [mem] contains. *)
Definition empty (mem : nat → float) (d0 d1 d2 : nat) : ndarray :=
  Ndarray d0 d1 d2 (mem <$> seq 0 (d0 * d1 * d2)).

Definition set_cell (A : ndarray) (r c i : nat) (v : float) : ndarray :=
  Ndarray (dim0 A) (dim1 A) (dim2 A) (<[offset A r c i := v]> (buf A)).

Definition cell (A : ndarray) (r c i : nat) : option float :=
  buf A !! offset A r c i.

(** [A[r, c, i] = v] *)
Definition setitem (A : ndarray) (r c i : nat) (v : float) : result ndarray :=
  if in_bounds A r c i then Ok (set_cell A r c i v) else Raise IndexError.

(** [A[r, c, i]] *)
Definition getitem (A : ndarray) (r c i : nat) : result float :=
  if in_bounds A r c i then
    match cell A r c i with
    | Some v => Ok v
    | None => Raise IndexError
    end
  else Raise IndexError.

(** [A[:, :, i]] as a list of rows *)
Definition slice_last (A : ndarray) (i : nat) : result (list (list float)) :=
  if i <? dim2 A then
    match mapM (λ r, mapM (λ c, cell A r c i) (seq 0 (dim1 A)))
               (seq 0 (dim0 A)) with
    | Some m => Ok m
    | None => Raise IndexError
    end
  else Raise IndexError.

Definition wf (A : ndarray) : Prop :=
  length (buf A) = dim0 A * dim1 A * dim2 A.

Definition has_shape (A : ndarray) (d0 d1 d2 : nat) : Prop :=
  dim0 A = d0 ∧ dim1 A = d1 ∧ dim2 A = d2 ∧ wf A.
End Ndarray.
Arguments ndarray : clear implicits.
End Np.

(** ** Framework objects

    [pwem.objects.Transform], [tomo.objects.TiltImage] and
    [tomo.objects.TiltSeries] belong to the workflow framework; they are
    records of the attributes the protocol reads and writes.  Persistence
    and the numbering of set items are the framework's business. *)
Section Objects.
Context {float : Type}.

Record Transform : Type := { matrix : list (list float) }.

(** [data.Transform()]: the matrix starts as the 4x4 identity. *)
Definition Transform_new (zero one : float) : Transform :=
  {| matrix := [[one; zero; zero; zero]; [zero; one; zero; zero];
                [zero; zero; one; zero]; [zero; zero; zero; one]] |}.

Definition setMatrix (_ : Transform) (m : list (list float)) : Transform :=
  {| matrix := m |}.

Record TiltImage : Type := {
  objId : option nat;
  tsId : option string;
  tiltAngle : option float;
  acqOrder : option nat;
  samplingRate : option float;
  location : nat * option string;
  transform : option Transform
}.

(** [tomoObj.TiltImage()] *)
Definition TiltImage_new : TiltImage :=
  {| objId := None; tsId := None; tiltAngle := None; acqOrder := None;
     samplingRate := None; location := (0, None); transform := None |}.

(** [self.copyInfo(other, copyId)]: sampling rate, tilt angle, series id
    and acquisition order, and the object id when [copyId]. *)
Definition copyInfo (self other : TiltImage) (copyId : bool) : TiltImage :=
  {| objId := if copyId then objId other else objId self;
     tsId := tsId other;
     tiltAngle := tiltAngle other;
     acqOrder := acqOrder other;
     samplingRate := samplingRate other;
     location := location self;
     transform := transform self |}.

Definition getLocation (self : TiltImage) : nat * option string :=
  location self.

Definition setLocation (self : TiltImage) (loc : nat * option string)
  : TiltImage :=
  {| objId := objId self; tsId := tsId self; tiltAngle := tiltAngle self;
     acqOrder := acqOrder self; samplingRate := samplingRate self;
     location := loc; transform := transform self |}.

Definition setTransform (self : TiltImage) (t : Transform) : TiltImage :=
  {| objId := objId self; tsId := tsId self; tiltAngle := tiltAngle self;
     acqOrder := acqOrder self; samplingRate := samplingRate self;
     location := location self; transform := Some t |}.

Record TiltSeries : Type := {
  series_tsId : string;
  series_samplingRate : option float;
  items : list TiltImage
}.

(** [tomoObj.TiltSeries(tsId=tsId)] *)
Definition TiltSeries_new (tsId : string) : TiltSeries :=
  {| series_tsId := tsId; series_samplingRate := None; items := [] |}.

(** [newTs.copyInfo(ts)]: series-level attributes, not the items. *)
Definition series_copyInfo (self other : TiltSeries) : TiltSeries :=
  {| series_tsId := series_tsId other;
     series_samplingRate := series_samplingRate other;
     items := items self |}.

(** [newTs.append(newTi)] *)
Definition series_append (newTi : TiltImage) (self : TiltSeries)
  : TiltSeries :=
  {| series_tsId := series_tsId self;
     series_samplingRate := series_samplingRate self;
     items := items self ++ [newTi] |}.
End Objects.
Arguments Transform : clear implicits.
Arguments TiltImage : clear implicits.
Arguments TiltSeries : clear implicits.


(** ** The protocol *)
Section Protocol.
Context {float : Type}.

(** The builtin [float] applied to a token ([None]: [ValueError]) and the
    values of the literals [0.0] and [1.0]. *)
Variable py_float : string → option float.
Variables zero one : float.

(** Contents of freshly allocated array memory. *)
Variable mem : nat → float.

(** The files of the working directory, by path, as the external
    [tiltxcorr] and [xftoxg] jobs left them. *)
Variable fs : gmap string string.

(** [self._getExtraPath], provided by the framework. *)
Variable _getExtraPath : string → string.

Abbreviation ndarray := (Np.ndarray float).

(** [with open(matrixFile, "r") as matrix: lines = matrix.readlines()] *)
Definition open_readlines (matrixFile : string) : result (list string) :=
  match fs !! matrixFile with
  | Some content => Ok (PyStr.readlines content)
  | None => Raise FileNotFoundError
  end.

(** [values[k]] *)
Definition item (values : list string) (k : nat) : result string :=
  match values !! k with
  | Some t => Ok t
  | None => Raise IndexError
  end.

(** [float(t)] *)
Definition float_ (t : string) : result float :=
  match py_float t with
  | Some v => Ok v
  | None => Raise ValueError
  end.

(** Body of [for line in lines] on the loop state [(frameMatrix, i)]. *)
Definition loop_body (line : string) (st : ndarray * nat)
  : result (ndarray * nat) :=
  let '(frameMatrix, i) := st in
  let values := PyStr.split line in
  v ← item values 0 ≫= float_;
  frameMatrix ← Np.setitem frameMatrix 0 0 i v;
  v ← item values 1 ≫= float_;
  frameMatrix ← Np.setitem frameMatrix 1 0 i v;
  v ← item values 2 ≫= float_;
  frameMatrix ← Np.setitem frameMatrix 0 1 i v;
  v ← item values 3 ≫= float_;
  frameMatrix ← Np.setitem frameMatrix 1 1 i v;
  v ← item values 4 ≫= float_;
  frameMatrix ← Np.setitem frameMatrix 0 2 i v;
  v ← item values 5 ≫= float_;
  frameMatrix ← Np.setitem frameMatrix 1 2 i v;
  frameMatrix ← Np.setitem frameMatrix 2 0 i zero;
  frameMatrix ← Np.setitem frameMatrix 2 1 i zero;
  frameMatrix ← Np.setitem frameMatrix 2 2 i one;
  Ok (frameMatrix, i + 1).

Fixpoint for_lines (lines : list string) (st : ndarray * nat)
  : result (ndarray * nat) :=
  match lines with
  | [] => Ok st
  | line :: rest => st' ← loop_body line st; for_lines rest st'
  end.

Definition formatTransformationMatrix (matrixFile : string) : result ndarray :=
  lines ← open_readlines matrixFile;
  let numberLines := length lines in
  let frameMatrix := Np.empty mem 3 3 numberLines in
  st ← for_lines lines (frameMatrix, 0);
  Ok st.1.

(** *** Output generation of [computeXcorrStep]

    The state is the output set of tilt-series.  [newTs] is the entry at
    position [p] of the set, so that [newTs.append] is seen through it. *)
Definition State : Type := list (TiltSeries float).

Fixpoint for_tiltImages (alignmentMatrix : ndarray) (p index : nat)
    (tiltImages : list (TiltImage float)) (out : State)
  : result unit * State :=
  match tiltImages with
  | [] => (Ok (), out)
  | tiltImage :: rest =>
      let newTi := TiltImage_new in
      let newTi := copyInfo newTi tiltImage true in
      let newTi := setLocation newTi (getLocation tiltImage) in
      let transform := Transform_new zero one in
      match Np.slice_last alignmentMatrix index with
      | Raise e => (Raise e, out)
      | Ok m =>
          let transform := setMatrix transform m in
          let newTi := setTransform newTi transform in
          for_tiltImages alignmentMatrix p (index + 1) rest
            (alter (series_append newTi) p out)
      end
  end.

(** The stack applier, lines 152-165 of [computeXcorrStep]: build [newTs]
    from [ts] and the parsed stack.  [write] and [update] persist what the
    state already holds. *)
Definition applyStack (alignmentMatrix : ndarray) (ts : TiltSeries float)
    (out : State) : result unit * State :=
  let tsId := series_tsId ts in
  let newTs := TiltSeries_new tsId in
  let newTs := series_copyInfo newTs ts in
  let p := length out in
  let out := out ++ [newTs] in
  for_tiltImages alignmentMatrix p 0 (items ts) out.

Definition prexg_path (tsId : string) : string :=
  _getExtraPath (tsId +:+ "/" +:+ tsId +:+ ".prexg").

(** [computeXcorrStep] from "Generate output tilt series" on. *)
Fixpoint computeXcorrStep (inputSetOfTiltSeries : list (TiltSeries float))
    (out : State) : result unit * State :=
  match inputSetOfTiltSeries with
  | [] => (Ok (), out)
  | ts :: rest =>
      let tsId := series_tsId ts in
      match formatTransformationMatrix (prexg_path tsId) with
      | Raise e => (Raise e, out)
      | Ok alignmentMatrix =>
          match applyStack alignmentMatrix ts out with
          | (Raise e, out') => (Raise e, out')
          | (Ok _, out') => computeXcorrStep rest out'
          end
      end
  end.

(** *** Functions used to state the properties

    They are not in the source; the lemmas [loop_body_eq], [for_lines_eq],
    [formatTransformationMatrix_eq], [for_tiltImages_eq] and [applyStack_eq]
    below relate the source functions to them. *)

(** A source frame with the matrix [m] as its transform. *)
Definition frame_of (tiltImage : TiltImage float) (m : list (list float))
  : TiltImage float :=
  setTransform tiltImage {| matrix := m |}.

(** The frames built from [tiltImages], numbered from [index], up to the
    first one whose transform cannot be read from the stack. *)
Fixpoint attach (alignmentMatrix : ndarray) (index : nat)
    (tiltImages : list (TiltImage float)) : list (TiltImage float) :=
  match tiltImages with
  | [] => []
  | tiltImage :: rest =>
      match Np.slice_last alignmentMatrix index with
      | Ok m => frame_of tiltImage m :: attach alignmentMatrix (index + 1) rest
      | Raise _ => []
      end
  end.

Fixpoint attach_status (alignmentMatrix : ndarray) (index : nat)
    (tiltImages : list (TiltImage float)) : result unit :=
  match tiltImages with
  | [] => Ok ()
  | _ :: rest =>
      match Np.slice_last alignmentMatrix index with
      | Ok _ => attach_status alignmentMatrix (index + 1) rest
      | Raise e => Raise e
      end
  end.

(** [series] with [frames] appended to its items. *)
Definition extend (frames : list (TiltImage float)) (series : TiltSeries float)
  : TiltSeries float :=
  {| series_tsId := series_tsId series;
     series_samplingRate := series_samplingRate series;
     items := items series ++ frames |}.

(** The six values of a line, with the exceptions in evaluation order. *)
Definition tokens_values (values : list string)
  : result (float * float * float * float * float * float) :=
  v0 ← item values 0 ≫= float_;
  v1 ← item values 1 ≫= float_;
  v2 ← item values 2 ≫= float_;
  v3 ← item values 3 ≫= float_;
  v4 ← item values 4 ≫= float_;
  v5 ← item values 5 ≫= float_;
  Ok (v0, v1, v2, v3, v4, v5).

Definition line_values (line : string)
  : result (float * float * float * float * float * float) :=
  tokens_values (PyStr.split line).

(** The exception met when the first [n] positions of a token list are
    read in order: a missing position is an [IndexError], a token that
    [float] rejects a [ValueError]. *)
Fixpoint tokens_error (n : nat) (values : list string) : option exn :=
  match n with
  | 0 => None
  | S n' =>
      match values with
      | [] => Some IndexError
      | t :: rest =>
          match py_float t with
          | None => Some ValueError
          | Some _ => tokens_error n' rest
          end
      end
  end.

(** The 3x3 matrix of the field mapping. *)
Definition frame_matrix (vs : float * float * float * float * float * float)
  : list (list float) :=
  let '(v0, v1, v2, v3, v4, v5) := vs in
  [[v0; v2; v4]; [v1; v3; v5]; [zero; zero; one]].

(** The nine stores of the loop body, all in bounds. *)
Definition store_frame (A : ndarray) (i : nat)
    (vs : float * float * float * float * float * float) : ndarray :=
  let '(v0, v1, v2, v3, v4, v5) := vs in
  let A := Np.set_cell A 0 0 i v0 in
  let A := Np.set_cell A 1 0 i v1 in
  let A := Np.set_cell A 0 1 i v2 in
  let A := Np.set_cell A 1 1 i v3 in
  let A := Np.set_cell A 0 2 i v4 in
  let A := Np.set_cell A 1 2 i v5 in
  let A := Np.set_cell A 2 0 i zero in
  let A := Np.set_cell A 2 1 i zero in
  Np.set_cell A 2 2 i one.

Fixpoint lines_values (lines : list string)
  : result (list (float * float * float * float * float * float)) :=
  match lines with
  | [] => Ok []
  | line :: rest =>
      vs ← line_values line; vss ← lines_values rest; Ok (vs :: vss)
  end.

Fixpoint store_frames (A : ndarray) (i : nat)
    (vss : list (float * float * float * float * float * float)) : ndarray :=
  match vss with
  | [] => A
  | vs :: rest => store_frames (store_frame A i vs) (i + 1) rest
  end.

(** Entry [(r, c)] of a matrix given as a list of rows. *)
Definition entry (m : list (list float)) (r c : nat) : option float :=
  m !! r ≫= (.!! c).

Definition numeric (t : string) : Prop := is_Some (py_float t).

(** At least six tokens, the first six of them numeric. *)
Definition good_line (line : string) : Prop :=
  6 ≤ length (PyStr.split line) ∧
  Forall numeric (take 6 (PyStr.split line)).

#[global] Instance numeric_dec t : Decision (numeric t).
Proof. unfold numeric. apply _. Defined.

#[global] Instance good_line_dec line : Decision (good_line line).
Proof. unfold good_line. apply _. Defined.

End Protocol.

(** ** A worked example

    The two-line transform file of a series [TS_01] and a two-frame
    tilt-series, on binary64 numbers. *)
Module Sample.
Definition nl : string := String PyStr.LF EmptyString.

Definition line1 : string := "1.0 0.0 0.0 1.0 2.5 -1.5".
Definition line2 : string := "0.9998 0.0175 -0.0175 0.9998 0.0 0.0".

Definition prexg : string := line1 +:+ nl +:+ line2 +:+ nl.

Definition path : string := "extra/TS_01/TS_01.prexg".

Definition fs : gmap string string := {[ path := prexg ]}.

(** Other transform files: one line; a line of five fields; a blank line
    between two good ones; a seventh token that is not a number; no line
    at all. *)
Definition single : string := line1 +:+ nl.
Definition short : string := "1.0 0.0 0.0 1.0 2.5" +:+ nl.
Definition blank : string := line1 +:+ nl +:+ nl +:+ line2 +:+ nl.
Definition seven_line : string := "1.0 0.0 0.0 1.0 2.5 -1.5 foo" +:+ nl.
Definition empty : string := "".

Definition dir : gmap string string :=
  <["extra/single.prexg" := single]>
  (<["extra/short.prexg" := short]>
  (<["extra/blank.prexg" := blank]>
  (<["extra/seven.prexg" := seven_line]>
  (<["extra/empty.prexg" := empty]> fs)))).

(** Memory that holds NaNs before it is written. *)
Definition mem : nat → PyFloat.float := λ _, S754_nan.

Definition parse : gmap string string → string → result (Np.ndarray PyFloat.float) :=
  formatTransformationMatrix PyFloat.of_string PyFloat.zero PyFloat.one mem.

(** The stack parsed from [prexg]. *)
Definition parsed : Np.ndarray PyFloat.float := Eval vm_compute in
  match parse fs path with
  | Ok A => A
  | Raise _ => Np.Ndarray 0 0 0 []
  end.

(** [[1.0, 0.0, 2.5], [0.0, 1.0, -1.5], [0, 0, 1]] *)
Definition first_matrix : list (list PyFloat.float) :=
  [[PyFloat.dyadic 1 0; PyFloat.zero; PyFloat.dyadic 5 (-1)];
   [PyFloat.zero; PyFloat.dyadic 1 0; PyFloat.dyadic (-3) (-1)];
   [PyFloat.zero; PyFloat.zero; PyFloat.one]].

(** A stack of two translations, by (2.5, -1.5) and by (4, 0). *)
Definition stack2 : Np.ndarray PyFloat.float :=
  let z := PyFloat.zero in
  let o := PyFloat.one in
  Np.Ndarray 3 3 2
    [o; o;  z; z;  PyFloat.dyadic 5 (-1); PyFloat.dyadic 4 0;
     z; z;  o; o;  PyFloat.dyadic (-3) (-1); z;
     z; z;  z; z;  o; o].

(** The stack cut down to its first transform. *)
Definition stack1 : Np.ndarray PyFloat.float :=
  let z := PyFloat.zero in
  let o := PyFloat.one in
  Np.Ndarray 3 3 1
    [o; z; PyFloat.dyadic 5 (-1);
     z; o; PyFloat.dyadic (-3) (-1);
     z; z; o].

Definition image (k : nat) (angle : Z) : TiltImage PyFloat.float :=
  {| objId := Some k; tsId := Some "TS_01";
     tiltAngle := Some (PyFloat.dyadic angle 0); acqOrder := Some k;
     samplingRate := Some (PyFloat.dyadic 11 (-2));
     location := (k, Some "TS_01.mrc"); transform := None |}.

Definition series (frames : list (TiltImage PyFloat.float))
  : TiltSeries PyFloat.float :=
  {| series_tsId := "TS_01";
     series_samplingRate := Some (PyFloat.dyadic 11 (-2));
     items := frames |}.

Definition ts1 : TiltSeries PyFloat.float := series [image 1 (-60)].

Definition ts2 : TiltSeries PyFloat.float :=
  series [image 1 (-60); image 2 (-57)].

Definition apply : Np.ndarray PyFloat.float → TiltSeries PyFloat.float →
    list (TiltSeries PyFloat.float) →
    result unit * list (TiltSeries PyFloat.float) :=
  applyStack PyFloat.zero PyFloat.one.
End Sample.

(** ** The output step as a whole

    What one run of the output loop of [computeXcorrStep] owes to each
    input series. *)
Section OutputStep.
Context {float : Type}.
Variable py_float : string → option float.
Variables zero one : float.
Variable mem : nat → float.
Variable fs : gmap string string.
Variable _getExtraPath : string → string.

(** [newTs] carries the series-level attributes of [ts] and, frame by
    frame, the frames of [ts] with the transforms read from the file of
    [ts]. *)
Definition built_from (ts newTs : TiltSeries float) : Prop :=
  series_tsId newTs = series_tsId ts ∧
  series_samplingRate newTs = series_samplingRate ts ∧
  length (items newTs) = length (items ts) ∧
  ∃ alignmentMatrix,
    formatTransformationMatrix py_float zero one mem fs
      (prexg_path _getExtraPath (series_tsId ts)) = Ok alignmentMatrix ∧
    ∀ index tiltImage, items ts !! index = Some tiltImage →
      ∃ m, Np.slice_last alignmentMatrix index = Ok m ∧
           items newTs !! index = Some (frame_of tiltImage m).

End OutputStep.

(** ** [os.path.join] on POSIX paths *)
Module PosixPath.
Definition startswith_sep (b : string) : bool :=
  match b with
  | String c _ => Ascii.eqb c "/"
  | EmptyString => false
  end.

Fixpoint endswith_sep (path : string) : bool :=
  match path with
  | EmptyString => false
  | String c EmptyString => Ascii.eqb c "/"
  | String _ rest => endswith_sep rest
  end.

(** One round of the loop [for b in p]. *)
Definition join2 (path b : string) : string :=
  if startswith_sep b then b
  else if bool_decide (path = EmptyString) || endswith_sep path then path +:+ b
  else path +:+ "/" +:+ b.

Definition join (a : string) (p : list string) : string := foldl join2 a p.
End PosixPath.

(** ** The [%] operator of [str] with a dict on the right

    The fragment the protocols use: text, [%%], and [%(key)s], [%(key)d],
    [%(key)f] without flags, width or precision.  Everything else ends in
    [Unsupported], which is no Python exception but the border of the
    model. *)
Module PyFormat.
Inductive exn : Type :=
  | KeyError (key : string)
  | TypeError
  | ValueError
  | OverflowError
  | IndexError
  | AttributeError
  | Unsupported.

Inductive outcome (A : Type) : Type :=
  | Done (a : A)
  | Fail (e : exn).
Arguments Done {A} a.
Arguments Fail {A} e.

#[global] Instance outcome_ret : MRet outcome := @Done.
#[global] Instance outcome_bind : MBind outcome := λ A B f r,
  match r with
  | Done a => f a
  | Fail e => Fail e
  end.

Section Format.
Context {float : Type}.

(** [str(x)], ['%f' % x] and [int(x)] of a float [x]; [int] fails with
    [ValueError] on a NaN and [OverflowError] on an infinity. *)
Variable str_float : float → string.
Variable format_f : float → string.
Variable int_float : float → outcome Z.

Inductive value : Type :=
  | VStr (s : string)
  | VInt (n : Z)
  | VFloat (x : float).

(** Where the scan of the format stands: in plain text, after a [%],
    inside a parenthesised key (kept reversed, with the nesting depth), or
    after a key whose value has been looked up. *)
Inductive mode : Type :=
  | Text
  | Percent
  | InKey (acc : string) (depth : nat)
  | AfterKey (v : value).

Definition convert (c : ascii) (v : value) : outcome string :=
  if Ascii.eqb c "s" then
    match v with
    | VStr s => Done s
    | VInt n => Done (pretty n)
    | VFloat x => Done (str_float x)
    end
  else if Ascii.eqb c "d" then
    match v with
    | VStr _ => Fail TypeError
    | VInt n => Done (pretty n)
    | VFloat x => n ← int_float x; Done (pretty n)
    end
  else if Ascii.eqb c "f" then
    match v with
    | VStr _ => Fail TypeError
    | VInt _ => Fail Unsupported
    | VFloat x => Done (format_f x)
    end
  else Fail Unsupported.

Fixpoint scan (d : gmap string value) (m : mode) (fmt : string)
  : outcome (string * mode) :=
  match fmt with
  | EmptyString => Done (EmptyString, m)
  | String c rest =>
      match m with
      | Text =>
          if Ascii.eqb c "%" then scan d Percent rest
          else '(out, m') ← scan d Text rest; Done (String c out, m')
      | Percent =>
          if Ascii.eqb c "%" then
            '(out, m') ← scan d Text rest; Done (String "%" out, m')
          else if Ascii.eqb c "(" then scan d (InKey EmptyString 1) rest
          else Fail Unsupported
      | InKey acc depth =>
          if Ascii.eqb c ")" then
            match depth with
            | 0 | 1 =>
                let key := String.rev acc in
                match d !! key with
                | Some v => scan d (AfterKey v) rest
                | None => Fail (KeyError key)
                end
            | S depth' => scan d (InKey (String c acc) depth') rest
            end
          else if Ascii.eqb c "(" then scan d (InKey (String c acc) (S depth)) rest
          else scan d (InKey (String c acc) depth) rest
      | AfterKey v =>
          if Ascii.eqb c "%" then
            '(out, m') ← scan d Text rest; Done (String "%" out, m')
          else
            s ← convert c v;
            '(out, m') ← scan d Text rest; Done (s +:+ out, m')
      end
  end.

(** [fmt % d] *)
Definition format (fmt : string) (d : gmap string value) : outcome string :=
  '(out, m) ← scan d Text fmt;
  match m with
  | Text => Done out
  | _ => Fail ValueError
  end.

Fixpoint no_percent (s : string) : bool :=
  match s with
  | EmptyString => true
  | String c rest => negb (Ascii.eqb c "%") && no_percent rest
  end.

End Format.
End PyFormat.

(** [sep.join(l)] *)
Fixpoint str_join (sep : string) (l : list string) : string :=
  match l with
  | [] => EmptyString
  | [s] => s
  | s :: rest => s +:+ sep +:+ str_join sep rest
  end.

(** ** Printing binary64 numbers: ['%f' % x], [int(x)] and [str(x)] *)
Module PyFloatOut.
Definition float : Type := PyFloat.float.

#[global] Instance spec_float_eq_dec : EqDecision spec_float.
Proof. solve_decision. Defined.

(** The integer nearest to [num / den], ties to even. *)
Definition div_nearest_even (num den : Z) : Z :=
  let q := (num / den)%Z in
  let r := (num mod den)%Z in
  match (2 * r ?= den)%Z with
  | Lt => q
  | Gt => (q + 1)%Z
  | Eq => if Z.even q then q else (q + 1)%Z
  end.

(** The fraction [num / den] equal to [m * 2^e]. *)
Definition fraction (m : positive) (e : Z) : Z * Z :=
  if (0 <=? e)%Z then (Zpos m * 2 ^ e, 1)%Z else (Zpos m, 2 ^ (- e))%Z.

Fixpoint zeros (n : nat) : string :=
  match n with
  | 0 => EmptyString
  | S n' => String "0" (zeros n')
  end.

(** [n] in decimal, padded with zeros on the left to [width] digits. *)
Definition pad_left (width : nat) (n : Z) : string :=
  let s := pretty n in
  zeros (width - String.length s) +:+ s.

Definition sign_string (neg : bool) : string := if neg then "-" else "".

(** ['%f' % x]: six digits after the point. *)
Definition format_f (x : float) : string :=
  match x with
  | S754_nan => "nan"
  | S754_infinity neg => sign_string neg +:+ "inf"
  | S754_zero neg => sign_string neg +:+ "0.000000"
  | S754_finite neg m e =>
      let '(num, den) := fraction m e in
      let q := div_nearest_even (num * 1000000) den in
      sign_string neg +:+ pretty (q / 1000000)%Z +:+ "." +:+
      pad_left 6 (q mod 1000000)%Z
  end.

(** [int(x)]: truncation towards zero. *)
Definition int_float (x : float) : PyFormat.outcome Z :=
  match x with
  | S754_nan => PyFormat.Fail PyFormat.ValueError
  | S754_infinity _ => PyFormat.Fail PyFormat.OverflowError
  | S754_zero _ => PyFormat.Done 0%Z
  | S754_finite neg m e =>
      let '(num, den) := fraction m e in
      let q := (num / den)%Z in
      PyFormat.Done (if neg then (- q)%Z else q)
  end.

(** The exponent [k] with [10^k <= num/den < 10^(k+1)], found from an
    estimate by the bit lengths. *)
Definition pow10_le (k : Z) (num den : Z) : bool :=
  if (0 <=? k)%Z then (10 ^ k * den <=? num)%Z else (den <=? num * 10 ^ (- k))%Z.

Fixpoint adjust_up (fuel : nat) (k num den : Z) : Z :=
  match fuel with
  | 0 => k
  | S fuel' =>
      if pow10_le (k + 1) num den then adjust_up fuel' (k + 1) num den else k
  end.

Fixpoint adjust_down (fuel : nat) (k num den : Z) : Z :=
  match fuel with
  | 0 => k
  | S fuel' =>
      if pow10_le k num den then k else adjust_down fuel' (k - 1) num den
  end.

Definition decimal_exponent (num den : Z) : Z :=
  let est := ((Z.log2 num - Z.log2 den) * 30103 / 100000)%Z in
  adjust_up 4 (adjust_down 4 (est + 1) num den) num den.

(** The shortest digit string that reads back as [x], tried at [n]
    significant digits: the decimals just below and just above [x]. *)
Definition candidate (x : float) (num den k : Z) (n : Z) : option (Z * Z) :=
  let scale := (n - 1 - k)%Z in
  let '(N, D) := if (0 <=? scale)%Z then (num * 10 ^ scale, den)%Z
                 else (num, den * 10 ^ (- scale))%Z in
  let lo := (N / D)%Z in
  let r := (N mod D)%Z in
  let hi := (lo + 1)%Z in
  let reads c := bool_decide (PyFloat.of_decimal false c (- scale) = x) in
  let lo_ok := reads lo in
  let hi_ok := negb (r =? 0)%Z && reads hi in
  let prefer_hi :=
    match (2 * r ?= D)%Z with
    | Lt => false
    | Gt => true
    | Eq => Z.odd lo
    end in
  if lo_ok && hi_ok then Some (if prefer_hi then hi else lo, (- scale)%Z)
  else if lo_ok then Some (lo, (- scale)%Z)
  else if hi_ok then Some (hi, (- scale)%Z)
  else None.

Fixpoint shortest (fuel : nat) (x : float) (num den k : Z) (n : Z)
  : Z * Z :=
  match fuel with
  | 0 => (0, 0)%Z
  | S fuel' =>
      match candidate x num den k n with
      | Some c => c
      | None => shortest fuel' x num den k (n + 1)
      end
  end.

Fixpoint strip_zeros_fuel (fuel : nat) (c e : Z) : Z * Z :=
  match fuel with
  | 0 => (c, e)
  | S fuel' =>
      if (c mod 10 =? 0)%Z && negb (c =? 0)%Z
      then strip_zeros_fuel fuel' (c / 10)%Z (e + 1)%Z
      else (c, e)
  end.

Definition string_take (n : nat) (s : string) : string :=
  String.substring 0 n s.
Definition string_drop (n : nat) (s : string) : string :=
  String.substring n (String.length s - n) s.

(** [repr] of the positive number [digits * 10^e]. *)
Definition repr_digits (c e : Z) : string :=
  let digits := pretty c in
  let len := Z.of_nat (String.length digits) in
  let decpt := (len + e)%Z in
  if ((-4 <? decpt) && (decpt <=? 16))%Z then
    if (decpt <=? 0)%Z then "0." +:+ zeros (Z.to_nat (- decpt)) +:+ digits
    else if (len <=? decpt)%Z
         then digits +:+ zeros (Z.to_nat (decpt - len)) +:+ ".0"
         else string_take (Z.to_nat decpt) digits +:+ "." +:+
              string_drop (Z.to_nat decpt) digits
  else
    let x := (decpt - 1)%Z in
    string_take 1 digits +:+
    (if (1 <? len)%Z then "." +:+ string_drop 1 digits else "") +:+
    "e" +:+ (if (x <? 0)%Z then "-" else "+") +:+ pad_left 2 (Z.abs x).

(** [str(x)], the shortest text that reads back as [x]. *)
Definition str_float (x : float) : string :=
  match x with
  | S754_nan => "nan"
  | S754_infinity neg => sign_string neg +:+ "inf"
  | S754_zero neg => sign_string neg +:+ "0.0"
  | S754_finite neg m e =>
      let '(num, den) := fraction m e in
      let k := decimal_exponent num den in
      let '(c, e10) := shortest 17 (S754_finite false m e) num den k 1 in
      let '(c, e10) := strip_zeros_fuel 20 c e10 in
      sign_string neg +:+ repr_digits c e10
  end.

(** A float literal of the source. *)
Definition float_literal (text : string) : float :=
  default S754_nan (PyFloat.of_string text).

(** [float(n)], [x > n] and [x * n] for an int [n]. *)
Definition of_int (n : Z) : float :=
  binary_normalize PyFloat.prec PyFloat.emax n 0 false.

Definition gt_int (x : float) (n : Z) : bool :=
  SFltb (of_int n) x.

Definition mul_int (x : float) (n : Z) : float :=
  SFmul PyFloat.prec PyFloat.emax x (of_int n).
End PyFloatOut.

(** ** The external jobs of the xcorr protocol

    [runJob] hands a program name and an argument string to the shell; the
    jobs run so far are the state.  What the programs do to the working
    directory is theirs. *)
Section XcorrJobs.
Context {float : Type}.
Variable str_float : float → string.
Variable format_f : float → string.
Variable int_float : float → PyFormat.outcome Z.

(** The value of a float literal of the source, by its text. *)
Variable float_literal : string → float.

(** [self._getExtraPath], [self._getTmpPath] and the parameters
    [self.rotationAngle.get()] and [self.binning.get()]. *)
Variable _getExtraPath : string → string.
Variable _getTmpPath : string → string.
Variable rotationAngle : float.
Variable binning : float.

Abbreviation value := (@PyFormat.value float).
Abbreviation VStr := (@PyFormat.VStr float).
Abbreviation VInt := (@PyFormat.VInt float).
Abbreviation VFloat := (@PyFormat.VFloat float).
Abbreviation pyformat := (PyFormat.format str_float format_f int_float).

Definition Job : Type := string * string.

Definition argsXcorr : string :=
  "-input %(input)s " +:+
  "-output %(output)s " +:+
  "-tiltfile %(tiltfile)s " +:+
  "-RotationAngle %(RotationAngle)f " +:+
  "-FilterSigma1 %(FilterSigma1)f " +:+
  "-FilterSigma2 %(FilterSigma2)f " +:+
  "-FilterRadius2 %(FilterRadius2)f".

Definition paramsXcorr (tsId : string) : gmap string value :=
  let extraPrefix := _getExtraPath tsId in
  let tmpPrefix := _getTmpPath tsId in
  <["input" := VStr (PosixPath.join tmpPrefix [tsId +:+ ".st"])]>
  (<["output" := VStr (PosixPath.join extraPrefix [tsId +:+ ".prexf"])]>
  (<["tiltfile" := VStr (PosixPath.join tmpPrefix [tsId +:+ ".rawtlt"])]>
  (<["RotationAngle" := VFloat rotationAngle]>
  (<["FilterSigma1" := VFloat (float_literal "0.03")]>
  (<["FilterSigma2" := VFloat (float_literal "0.05")]>
  (<["FilterRadius2" := VFloat (float_literal "0.25")]> ∅)))))).

Definition argsXftoxg : string :=
  "-input %(input)s " +:+
  "-goutput %(goutput)s".

Definition paramsXftoxg (tsId : string) : gmap string value :=
  let extraPrefix := _getExtraPath tsId in
  <["input" := VStr (PosixPath.join extraPrefix [tsId +:+ ".prexf"])]>
  (<["goutput" := VStr (PosixPath.join extraPrefix [tsId +:+ ".prexg"])]> ∅).

(** The two jobs of one series, as text. *)
Definition jobs_of (ts : TiltSeries float) : list Job :=
  let tsId := series_tsId ts in
  let prexf := PosixPath.join (_getExtraPath tsId) [tsId +:+ ".prexf"] in
  [("tiltxcorr",
    "-input " +:+ PosixPath.join (_getTmpPath tsId) [tsId +:+ ".st"] +:+
    " -output " +:+ prexf +:+
    " -tiltfile " +:+
    PosixPath.join (_getTmpPath tsId) [tsId +:+ ".rawtlt"] +:+
    " -RotationAngle " +:+ format_f rotationAngle +:+
    " -FilterSigma1 " +:+ format_f (float_literal "0.03") +:+
    " -FilterSigma2 " +:+ format_f (float_literal "0.05") +:+
    " -FilterRadius2 " +:+ format_f (float_literal "0.25"));
   ("xftoxg",
    "-input " +:+ prexf +:+
    " -goutput " +:+
    PosixPath.join (_getExtraPath tsId) [tsId +:+ ".prexg"])].

(** The first loop of [computeXcorrStep], lines 116-145. *)
Fixpoint computeXcorrStep_jobs (inputSetOfTiltSeries : list (TiltSeries float))
    (jobs : list Job) : PyFormat.outcome unit * list Job :=
  match inputSetOfTiltSeries with
  | [] => (PyFormat.Done (), jobs)
  | ts :: rest =>
      let tsId := series_tsId ts in
      match pyformat argsXcorr (paramsXcorr tsId) with
      | PyFormat.Fail e => (PyFormat.Fail e, jobs)
      | PyFormat.Done a =>
          let jobs := jobs ++ [("tiltxcorr", a)] in
          match pyformat argsXftoxg (paramsXftoxg tsId) with
          | PyFormat.Fail e => (PyFormat.Fail e, jobs)
          | PyFormat.Done a =>
              let jobs := jobs ++ [("xftoxg", a)] in
              computeXcorrStep_jobs rest jobs
          end
      end
  end.

End XcorrJobs.

(** ** The interpolated stack step of the xcorr protocol *)
Section InterpolatedStack.
Context {float : Type}.
Variable str_float : float → string.
Variable format_f : float → string.
Variable int_float : float → PyFormat.outcome Z.
Variable float_literal : string → float.

(** [x > n] and [x * n] for a float [x] and an int [n]. *)
Variable float_gt_int : float → Z → bool.
Variable float_mul_int : float → Z → float.

Variable _getExtraPath : string → string.
Variable _getTmpPath : string → string.
Variable binning : float.

Definition argsAlignment : string :=
  "-input %(input)s " +:+
  "-output %(output)s " +:+
  "-xform %(xform)s " +:+
  "-bin %(bin)d " +:+
  "-mode %(mode)s " +:+
  "-float %(float)s " +:+
  "-imagebinned %(imagebinned)s".

Definition paramsAlginment (tsId : string) (bin : Z)
  : gmap string (@PyFormat.value float) :=
  let extraPrefix := _getExtraPath tsId in
  let tmpPrefix := _getTmpPath tsId in
  <["input" := PyFormat.VStr (PosixPath.join tmpPrefix [tsId +:+ ".st"])]>
  (<["output" :=
       PyFormat.VStr (PosixPath.join extraPrefix [tsId +:+ "_preali.st"])]>
  (<["xform" :=
       PyFormat.VStr (PosixPath.join extraPrefix [tsId +:+ ".prexg"])]>
  (<["bin" := PyFormat.VInt bin]>
  (<["mode" := PyFormat.VInt 0]>
  (<["float" := PyFormat.VInt 2]>
  (<["imagebinned" := PyFormat.VFloat (float_literal "1.0")]> ∅)))))).

Definition setSamplingRate (self : TiltImage float) (rate : float)
  : TiltImage float :=
  {| objId := objId self; tsId := tsId self; tiltAngle := tiltAngle self;
     acqOrder := acqOrder self; samplingRate := Some rate;
     location := location self; transform := transform self |}.

Definition series_setSamplingRate (self : TiltSeries float) (rate : float)
  : TiltSeries float :=
  {| series_tsId := series_tsId self; series_samplingRate := Some rate;
     items := items self |}.

(** [rate * int(self.binning.get())]; an unset rate is [None] and cannot
    be multiplied. *)
Definition scaled_rate (rate : option float) : PyFormat.outcome float :=
  n ← int_float binning;
  match rate with
  | None => PyFormat.Fail PyFormat.TypeError
  | Some r => PyFormat.Done (float_mul_int r n)
  end.

(** The frame expected at position [index] of the interpolated series and
    the [newstack] line expected for a series, as text. *)
Definition interpolated_frame (seriesId : string) (bin : Z) (index : nat)
    (tiltImage : TiltImage float) : TiltImage float :=
  {| objId := objId tiltImage; tsId := tsId tiltImage;
     tiltAngle := tiltAngle tiltImage; acqOrder := acqOrder tiltImage;
     samplingRate :=
       if float_gt_int binning 1
       then (λ r, float_mul_int r bin) <$> samplingRate tiltImage
       else samplingRate tiltImage;
     location :=
       (index + 1,
        Some (PosixPath.join (_getExtraPath seriesId)
                [seriesId +:+ "_preali.st"]));
     transform := None |}.

Fixpoint interpolated_frames (seriesId : string) (bin : Z) (index : nat)
    (tiltImages : list (TiltImage float)) : list (TiltImage float) :=
  match tiltImages with
  | [] => []
  | tiltImage :: rest =>
      interpolated_frame seriesId bin index tiltImage
      :: interpolated_frames seriesId bin (index + 1) rest
  end.

(** The sampling rates the step multiplies are set. *)
Definition rates_are_set (tiltImages : list (TiltImage float)) : Prop :=
  float_gt_int binning 1 = true →
  Forall (λ tiltImage, is_Some (samplingRate tiltImage)) tiltImages.

Definition newstack_command (tsId : string) (bin : Z) : string :=
  "-input " +:+ PosixPath.join (_getTmpPath tsId) [tsId +:+ ".st"] +:+
  " -output " +:+
  PosixPath.join (_getExtraPath tsId) [tsId +:+ "_preali.st"] +:+
  " -xform " +:+ PosixPath.join (_getExtraPath tsId) [tsId +:+ ".prexg"] +:+
  " -bin " +:+ pretty bin +:+
  " -mode 0 -float 2 -imagebinned " +:+ str_float (float_literal "1.0").

(** The state: the jobs run so far and the interpolated output set. *)
Definition IState : Type := list (string * string) * list (TiltSeries float).

(** [for index, tiltImage in enumerate(ts)] of the step; [p] is the
    position of [newTs] in the output set. *)
Fixpoint for_interpolated (tsId : string) (p index : nat)
    (tiltImages : list (TiltImage float)) (out : list (TiltSeries float))
  : PyFormat.outcome unit * list (TiltSeries float) :=
  match tiltImages with
  | [] => (PyFormat.Done (), out)
  | tiltImage :: rest =>
      let extraPrefix := _getExtraPath tsId in
      let newTi := TiltImage_new in
      let newTi := copyInfo newTi tiltImage true in
      let newTi :=
        setLocation newTi
          (index + 1,
           Some (PosixPath.join extraPrefix [tsId +:+ "_preali.st"])) in
      let scaled :=
        if float_gt_int binning 1 then
          rate ← scaled_rate (samplingRate tiltImage);
          PyFormat.Done (setSamplingRate newTi rate)
        else PyFormat.Done newTi in
      match scaled with
      | PyFormat.Fail e => (PyFormat.Fail e, out)
      | PyFormat.Done newTi =>
          for_interpolated tsId p (index + 1) rest
            (alter (series_append newTi) p out)
      end
  end.

Fixpoint computeInterpolatedStackStep
    (inputSetOfTiltSeries : list (TiltSeries float)) (st : IState)
  : PyFormat.outcome unit * IState :=
  match inputSetOfTiltSeries with
  | [] => (PyFormat.Done (), st)
  | ts :: rest =>
      let '(jobs, out) := st in
      let tsId := series_tsId ts in
      let newTs := series_copyInfo (TiltSeries_new tsId) ts in
      let p := length out in
      let out := out ++ [newTs] in
      match int_float binning with
      | PyFormat.Fail e => (PyFormat.Fail e, (jobs, out))
      | PyFormat.Done bin =>
          match PyFormat.format str_float format_f int_float argsAlignment
                  (paramsAlginment tsId bin) with
          | PyFormat.Fail e => (PyFormat.Fail e, (jobs, out))
          | PyFormat.Done a =>
              let jobs := jobs ++ [("newstack", a)] in
              match for_interpolated tsId p 0 (items ts) out with
              | (PyFormat.Fail e, out) => (PyFormat.Fail e, (jobs, out))
              | (PyFormat.Done _, out) =>
                  let finish :=
                    if float_gt_int binning 1 then
                      rate ← scaled_rate (series_samplingRate ts);
                      PyFormat.Done
                        (alter (λ s, series_setSamplingRate s rate) p out)
                    else PyFormat.Done out in
                  match finish with
                  | PyFormat.Fail e => (PyFormat.Fail e, (jobs, out))
                  | PyFormat.Done out =>
                      computeInterpolatedStackStep rest (jobs, out)
                  end
              end
          end
      end
  end.

End InterpolatedStack.

(** ** Steps and reports of the xcorr protocol *)
Module Xcorr.
Section Reports.
Context {float : Type}.

(** The attributes the reports read: the target of the input pointer and
    the two outputs, each absent until it has been defined. *)
Record Attributes : Type := {
  inputSetOfTiltSeries : option (list (TiltSeries float));
  outputSetOfTiltSeries : option (list (TiltSeries float));
  outputInterpolatedSetOfTiltSeries : option (list (TiltSeries float))
}.

(** [hasattr(self, 'outputInterpolatedSetOfTiltSeries')] *)
Definition hasattr_interpolated (self : Attributes) : bool :=
  bool_decide (is_Some (outputInterpolatedSetOfTiltSeries self)).

(** [x.getSize()] where [x] may be missing or [None]. *)
Definition getSize (x : option (list (TiltSeries float)))
  : PyFormat.outcome nat :=
  match x with
  | Some set => PyFormat.Done (length set)
  | None => PyFormat.Fail PyFormat.AttributeError
  end.

Definition nl : string := String PyStr.LF EmptyString.

Definition not_ready_summary : string := "Output classes not ready yet.".

Definition _summary (self : Attributes) : PyFormat.outcome (list string) :=
  if negb (hasattr_interpolated self) then
    a ← getSize (inputSetOfTiltSeries self);
    b ← getSize (outputSetOfTiltSeries self);
    PyFormat.Done
      ["Input Tilt-Series: " +:+ pretty a +:+ "." +:+ nl +:+
       "Transformation matrices calculated: " +:+ pretty b +:+ "." +:+ nl]
  else if hasattr_interpolated self then
    a ← getSize (outputSetOfTiltSeries self);
    b ← getSize (outputSetOfTiltSeries self);
    c ← getSize (outputInterpolatedSetOfTiltSeries self);
    PyFormat.Done
      ["Input Tilt-Series: " +:+ pretty a +:+ "." +:+ nl +:+
       "Transformation matrices calculated: " +:+ pretty b +:+ "." +:+ nl +:+
       "Interpolated Tilt-Series: " +:+ pretty c +:+ "." +:+ nl]
  else PyFormat.Done [not_ready_summary].

Definition _methods (self : Attributes) : PyFormat.outcome (list string) :=
  if negb (hasattr_interpolated self) then
    a ← getSize (outputSetOfTiltSeries self);
    PyFormat.Done
      ["The transformation matrix has been calculated for " +:+ pretty a +:+
       " Tilt-series using the IMOD procedure." +:+ nl]
  else if hasattr_interpolated self then
    a ← getSize (outputSetOfTiltSeries self);
    b ← getSize (outputInterpolatedSetOfTiltSeries self);
    PyFormat.Done
      ["The transformation matrix has been calculated for " +:+ pretty a +:+
       " Tilt-series using the IMOD procedure." +:+ nl +:+
       "Also, interpolation has been completed for " +:+ pretty b +:+
       " Tilt-series." +:+ nl]
  else PyFormat.Done [not_ready_summary].
End Reports.
End Xcorr.

(** ** The tomogram reconstruction protocol *)
Module TomoReconstruction.

(** The step functions, and a step: a function with its arguments. *)
Inductive StepFunction : Type :=
  | ConvertInputStep
  | ComputeReconstructionStep
  | CreateOutputStep
  | CloseOutputSetsStep.

Definition Step : Type := StepFunction * list nat.

#[global] Instance StepFunction_eq_dec : EqDecision StepFunction.
Proof. solve_decision. Defined.

(** [self._insertFunctionStep(func, *args)] *)
Definition _insertFunctionStep (steps : list Step) (func : StepFunction)
    (args : list nat) : list Step :=
  steps ++ [(func, args)].

(** The loop [for ts in self.inputSetOfTiltSeries.get()], on the object
    ids [ts.getObjId()] of the series. *)
Fixpoint insert_series_steps (objIds : list nat) (steps : list Step)
  : list Step :=
  match objIds with
  | [] => steps
  | tsObjId :: rest =>
      let steps := _insertFunctionStep steps ConvertInputStep [tsObjId] in
      let steps :=
        _insertFunctionStep steps ComputeReconstructionStep [tsObjId] in
      let steps := _insertFunctionStep steps CreateOutputStep [tsObjId] in
      insert_series_steps rest steps
  end.

Definition _insertAllSteps (objIds : list nat) (steps : list Step)
  : list Step :=
  let steps := insert_series_steps objIds steps in
  _insertFunctionStep steps CloseOutputSetsStep [].

(** The three steps inserted for one series. *)
Definition series_steps (tsObjId : nat) : list Step :=
  [(ConvertInputStep, [tsObjId]); (ComputeReconstructionStep, [tsObjId]);
   (CreateOutputStep, [tsObjId])].

Section Reconstruction.
Context {float : Type}.
Variable str_float : float → string.
Variable format_f : float → string.
Variable int_float : float → PyFormat.outcome Z.
Variable _getExtraPath : string → string.
Variable _getTmpPath : string → string.

(** The form parameters, as [.get()] returns them. *)
Record Params : Type := {
  tomoThickness : float;
  tomoShiftX : float;
  tomoShiftZ : float;
  angleOffset : float;
  tiltAxisOffset : float;
  fakeInteractionsSIRT : Z;
  radialFirstParameter : float;
  radialSecondParameter : float;
  usesGpu : bool;
  getGpuList : list Z
}.

(** What the step reads of the tilt-series: its id, the method
    [parseFileName] of its first item (by the [extension] argument) and
    [getExcludedViewsIndex(caster=str)]. *)
Record Series : Type := {
  getTsId : string;
  parseFileName : option string → string;
  getExcludedViewsIndex : list string
}.

Definition argsTilt_base : string :=
  "-InputProjections %(InputProjections)s " +:+
  "-OutputFile %(OutputFile)s " +:+
  "-TILTFILE %(TiltFile)s " +:+
  "-THICKNESS %(Thickness)d " +:+
  "-FalloffIsTrueSigma %(FalloffIsTrueSigma)d " +:+
  "-RADIAL %(Radial)s " +:+
  "-SHIFT %(Shift)s " +:+
  "-OFFSET %(Offset)s " +:+
  "-MODE 1 " +:+
  "-PERPENDICULAR " +:+
  "-AdjustOrigin ".

Definition paramsTilt_base (self : Params) (ts : Series)
  : gmap string (@PyFormat.value float) :=
  let tmpPrefix := _getTmpPath (getTsId ts) in
  <["InputProjections" :=
      PyFormat.VStr (PosixPath.join tmpPrefix [parseFileName ts None])]>
  (<["OutputFile" :=
      PyFormat.VStr (PosixPath.join tmpPrefix [parseFileName ts (Some ".rec")])]>
  (<["TiltFile" :=
      PyFormat.VStr (PosixPath.join tmpPrefix [parseFileName ts (Some ".tlt")])]>
  (<["Thickness" := PyFormat.VFloat (tomoThickness self)]>
  (<["FalloffIsTrueSigma" := PyFormat.VInt 1]>
  (<["Radial" :=
      PyFormat.VStr (str_float (radialFirstParameter self) +:+ "," +:+
                     str_float (radialSecondParameter self))]>
  (<["Shift" :=
      PyFormat.VStr (str_float (tomoShiftX self) +:+ "," +:+
                     str_float (tomoShiftZ self))]>
  (<["Offset" :=
      PyFormat.VStr (str_float (angleOffset self) +:+ "," +:+
                     str_float (tiltAxisOffset self))]> ∅))))))).

Definition argsTrimvol : string :=
  "%(options)s " +:+
  "%(input)s " +:+
  "%(output)s ".

Definition paramsTrimVol (ts : Series) : gmap string (@PyFormat.value float) :=
  let extraPrefix := _getExtraPath (getTsId ts) in
  let tmpPrefix := _getTmpPath (getTsId ts) in
  <["input" :=
      PyFormat.VStr (PosixPath.join tmpPrefix [parseFileName ts (Some ".rec")])]>
  (<["output" :=
      PyFormat.VStr (PosixPath.join extraPrefix [parseFileName ts (Some ".mrc")])]>
  (<["options" := PyFormat.VStr "-rx "]> ∅)).

(** [argsTilt] and [paramsTilt] as they stand before the [%]. *)
Definition tilt_format (self : Params) (ts : Series)
  : PyFormat.outcome (string * gmap string (@PyFormat.value float)) :=
  let paramsTilt := paramsTilt_base self ts in
  let argsTilt := argsTilt_base in
  let '(paramsTilt, argsTilt) :=
    if bool_decide (fakeInteractionsSIRT self ≠ 0%Z) then
      (<["FakeSIRTInteractions" := PyFormat.VInt (fakeInteractionsSIRT self)]>
         paramsTilt,
       argsTilt +:+ "-FakeSIRTiterations %(FakeSIRTInteractions)d ")
    else (paramsTilt, argsTilt) in
  let excludedViews := getExcludedViewsIndex ts in
  let argsTilt :=
    if bool_decide (length excludedViews ≠ 0) then
      argsTilt +:+ ("-EXCLUDELIST2 " +:+ str_join "," excludedViews +:+ " ")
    else argsTilt in
  if usesGpu self then
    match getGpuList self !! 0 with
    | None => PyFormat.Fail PyFormat.IndexError
    | Some gpu =>
        PyFormat.Done
          (argsTilt +:+ (("-UseGPU " +:+ pretty gpu +:+ " ") +:+
                         "-ActionIfGPUFails 2,2 "),
           paramsTilt)
    end
  else PyFormat.Done (argsTilt, paramsTilt).

(** The command lines expected of the step, as text. *)
Definition tilt_base_text (self : Params) (ts : Series) (thickness : Z)
  : string :=
  let tmpPrefix := _getTmpPath (getTsId ts) in
  "-InputProjections " +:+
  PosixPath.join tmpPrefix [parseFileName ts None] +:+
  " -OutputFile " +:+
  PosixPath.join tmpPrefix [parseFileName ts (Some ".rec")] +:+
  " -TILTFILE " +:+
  PosixPath.join tmpPrefix [parseFileName ts (Some ".tlt")] +:+
  " -THICKNESS " +:+ pretty thickness +:+
  " -FalloffIsTrueSigma 1" +:+
  " -RADIAL " +:+
  (str_float (radialFirstParameter self) +:+ "," +:+
   str_float (radialSecondParameter self)) +:+
  " -SHIFT " +:+
  (str_float (tomoShiftX self) +:+ "," +:+ str_float (tomoShiftZ self)) +:+
  " -OFFSET " +:+
  (str_float (angleOffset self) +:+ "," +:+
   str_float (tiltAxisOffset self)) +:+
  " -MODE 1 -PERPENDICULAR -AdjustOrigin ".

Definition tilt_command (self : Params) (ts : Series) (thickness gpu : Z)
  : string :=
  let text := tilt_base_text self ts thickness in
  let text :=
    if bool_decide (fakeInteractionsSIRT self ≠ 0%Z)
    then text +:+ ("-FakeSIRTiterations " +:+
                   pretty (fakeInteractionsSIRT self) +:+ " ")
    else text in
  let text :=
    if bool_decide (getExcludedViewsIndex ts ≠ [])
    then text +:+ ("-EXCLUDELIST2 " +:+
                   str_join "," (getExcludedViewsIndex ts) +:+ " ")
    else text in
  if usesGpu self
  then text +:+ ("-UseGPU " +:+ pretty gpu +:+ " -ActionIfGPUFails 2,2 ")
  else text.

Definition trimvol_command (ts : Series) : string :=
  "-rx  " +:+
  PosixPath.join (_getTmpPath (getTsId ts)) [parseFileName ts (Some ".rec")] +:+
  " " +:+
  PosixPath.join (_getExtraPath (getTsId ts)) [parseFileName ts (Some ".mrc")] +:+
  " ".

(** [computeReconstructionStep] on the series found under [tsObjId]; the
    state is the list of the programs run through [Plugin.runImod]. *)
Definition computeReconstructionStep (self : Params) (ts : Series)
    (jobs : list (string * string))
  : PyFormat.outcome unit * list (string * string) :=
  match tilt_format self ts with
  | PyFormat.Fail e => (PyFormat.Fail e, jobs)
  | PyFormat.Done (argsTilt, paramsTilt) =>
      match PyFormat.format str_float format_f int_float argsTilt paramsTilt with
      | PyFormat.Fail e => (PyFormat.Fail e, jobs)
      | PyFormat.Done a =>
          let jobs := jobs ++ [("tilt", a)] in
          match PyFormat.format str_float format_f int_float argsTrimvol
                  (paramsTrimVol ts) with
          | PyFormat.Fail e => (PyFormat.Fail e, jobs)
          | PyFormat.Done a => (PyFormat.Done (), jobs ++ [("trimvol", a)])
          end
      end
  end.

End Reconstruction.
End TomoReconstruction.

(** ** Line endings of a transform file *)
Module LineEndings.
(** No carriage return in the text. *)
Fixpoint no_cr (s : string) : bool :=
  match s with
  | EmptyString => true
  | String c rest => negb (Ascii.eqb c PyStr.CR) && no_cr rest
  end.

(** The text with every line feed written as carriage return, line feed. *)
Fixpoint to_crlf (s : string) : string :=
  match s with
  | EmptyString => EmptyString
  | String c rest =>
      if Ascii.eqb c PyStr.LF
      then String PyStr.CR (String PyStr.LF (to_crlf rest))
      else String c (to_crlf rest)
  end.
End LineEndings.

(** ** A protocol run on the sample series *)
Module Run.
Definition workingDir : string := "Runs/000002_ProtImodXcorr".

(** [Protocol._getExtraPath] and [Protocol._getTmpPath]. *)
Definition _getExtraPath (p : string) : string :=
  PosixPath.join workingDir ["extra"; p].
Definition _getTmpPath (p : string) : string :=
  PosixPath.join workingDir ["tmp"; p].

Definition prexg_file : string :=
  "Runs/000002_ProtImodXcorr/extra/TS_01/TS_01.prexg".

(** The extra folder after [xftoxg]: with the two-line file, with the
    one-line file, with the two-line file without its last line feed, and
    with the two-line file in CR LF line endings. *)
Definition fs : gmap string string := {[ prexg_file := Sample.prexg ]}.
Definition fs_single : gmap string string := {[ prexg_file := Sample.single ]}.
Definition open_body : string :=
  Sample.line1 +:+ Sample.nl +:+ "0.9998 0.0175 -0.0175 0.9998 0.0 0.".
Definition fs_open : gmap string string :=
  {[ prexg_file := open_body +:+ "0" ]}.
Definition fs_crlf : gmap string string :=
  {[ prexg_file := LineEndings.to_crlf Sample.prexg ]}.

(** A series whose transform file does not exist. *)
Definition ts_missing : TiltSeries PyFloat.float :=
  {| series_tsId := "TS_02";
     series_samplingRate := Some (PyFloat.dyadic 11 (-2));
     items := [Sample.image 1 (-60)] |}.

Definition step (fs : gmap string string) :=
  computeXcorrStep PyFloat.of_string PyFloat.zero PyFloat.one Sample.mem fs
    _getExtraPath.

(** The output set after the two-frame series. *)
Definition output : list (TiltSeries PyFloat.float) := Eval vm_compute in
  (step fs [Sample.ts2] []).2.

(** [binning = 2.0] *)
Definition binning : PyFloat.float := PyFloat.dyadic 2 0.

Definition interpolated :=
  computeInterpolatedStackStep PyFloatOut.str_float PyFloatOut.format_f
    PyFloatOut.int_float PyFloatOut.float_literal PyFloatOut.gt_int
    PyFloatOut.mul_int _getExtraPath _getTmpPath binning.

(** The reconstruction form: thickness 100, SIRT-like filter of 5
    iterations, radial filter 0.35, 0.035, first GPU. *)
Definition params : TomoReconstruction.Params := {|
  TomoReconstruction.tomoThickness := PyFloat.dyadic 100 0;
  TomoReconstruction.tomoShiftX := PyFloat.zero;
  TomoReconstruction.tomoShiftZ := PyFloat.zero;
  TomoReconstruction.angleOffset := PyFloat.zero;
  TomoReconstruction.tiltAxisOffset := PyFloat.zero;
  TomoReconstruction.fakeInteractionsSIRT := 5;
  TomoReconstruction.radialFirstParameter := PyFloatOut.float_literal "0.35";
  TomoReconstruction.radialSecondParameter := PyFloatOut.float_literal "0.035";
  TomoReconstruction.usesGpu := true;
  TomoReconstruction.getGpuList := [0%Z]
|}.

Definition tomo_series : TomoReconstruction.Series := {|
  TomoReconstruction.getTsId := "TS_01";
  TomoReconstruction.parseFileName :=
    λ extension, "TS_01" +:+ default ".mrc" extension;
  TomoReconstruction.getExcludedViewsIndex := ["3"; "5"]
|}.

Definition reconstruction :=
  TomoReconstruction.computeReconstructionStep PyFloatOut.str_float
    PyFloatOut.format_f PyFloatOut.int_float _getExtraPath _getTmpPath.

(** The two command lines expected for that form and series. *)
Definition tilt_line : string :=
  "-InputProjections Runs/000002_ProtImodXcorr/tmp/TS_01/TS_01.mrc " +:+
  "-OutputFile Runs/000002_ProtImodXcorr/tmp/TS_01/TS_01.rec " +:+
  "-TILTFILE Runs/000002_ProtImodXcorr/tmp/TS_01/TS_01.tlt " +:+
  "-THICKNESS 100 -FalloffIsTrueSigma 1 -RADIAL 0.35,0.035 " +:+
  "-SHIFT 0.0,0.0 -OFFSET 0.0,0.0 -MODE 1 -PERPENDICULAR -AdjustOrigin " +:+
  "-FakeSIRTiterations 5 -EXCLUDELIST2 3,5 -UseGPU 0 -ActionIfGPUFails 2,2 ".
Definition trimvol_line : string :=
  "-rx  Runs/000002_ProtImodXcorr/tmp/TS_01/TS_01.rec " +:+
  "Runs/000002_ProtImodXcorr/extra/TS_01/TS_01.mrc ".

(** The [newstack] command line expected for the sample series. *)
Definition newstack_line : string :=
  "-input Runs/000002_ProtImodXcorr/tmp/TS_01/TS_01.st " +:+
  "-output Runs/000002_ProtImodXcorr/extra/TS_01/TS_01_preali.st " +:+
  "-xform Runs/000002_ProtImodXcorr/extra/TS_01/TS_01.prexg " +:+
  "-bin 2 -mode 0 -float 2 -imagebinned 1.0".
End Run.

(** * Properties *)

(** ** Arrays *)
Section NdarrayFacts.
Context {float : Type}.
Implicit Types A : Np.ndarray float.

Lemma mul_add_inj (a b i j n : nat) :
  i < n → j < n → a * n + i = b * n + j → a = b ∧ i = j.
Proof.
  intros Hi Hj Heq.
  assert (a = b) as ->; [| lia].
  destruct (Nat.lt_trichotomy a b) as [Hlt | [-> | Hlt]]; [| done |].
  - pose proof (Nat.mul_le_mono_r (S a) b n Hlt). simpl in *. lia.
  - pose proof (Nat.mul_le_mono_r (S b) a n Hlt). simpl in *. lia.
Qed.

Lemma mul_add_lt (a i m n : nat) : a < m → i < n → a * n + i < m * n.
Proof.
  intros Ha Hi. pose proof (Nat.mul_le_mono_r (S a) m n Ha). simpl in *. lia.
Qed.

Lemma offset_inj A r c i r' c' i' :
  c < Np.dim1 A → i < Np.dim2 A → c' < Np.dim1 A → i' < Np.dim2 A →
  Np.offset A r c i = Np.offset A r' c' i' → r = r' ∧ c = c' ∧ i = i'.
Proof.
  unfold Np.offset. intros Hc Hi Hc' Hi' Heq.
  apply mul_add_inj in Heq as [Hq ->]; [| done | done].
  apply mul_add_inj in Hq as [-> ->]; done.
Qed.

Lemma offset_lt A r c i :
  Np.wf A → r < Np.dim0 A → c < Np.dim1 A → i < Np.dim2 A →
  Np.offset A r c i < length (Np.buf A).
Proof.
  unfold Np.wf, Np.offset. intros -> Hr Hc Hi.
  apply mul_add_lt; [| done]. by apply mul_add_lt.
Qed.

Lemma set_cell_wf A r c i v : Np.wf A → Np.wf (Np.set_cell A r c i v).
Proof. unfold Np.wf. simpl. by rewrite length_insert. Qed.

Lemma empty_shape (mem : nat → float) d0 d1 d2 :
  Np.has_shape (Np.empty mem d0 d1 d2) d0 d1 d2.
Proof.
  repeat split. unfold Np.wf. simpl. by rewrite length_fmap, length_seq.
Qed.

Lemma set_cell_shape A d0 d1 d2 r c i v :
  Np.has_shape A d0 d1 d2 → Np.has_shape (Np.set_cell A r c i v) d0 d1 d2.
Proof.
  intros (H0 & H1 & H2 & Hwf). repeat split; [done .. |].
  by apply set_cell_wf.
Qed.

Lemma setitem_ok A d0 d1 d2 r c i v :
  Np.has_shape A d0 d1 d2 → r < d0 → c < d1 → i < d2 →
  Np.setitem A r c i v = Ok (Np.set_cell A r c i v).
Proof.
  intros (<- & <- & <- & _) Hr Hc Hi. unfold Np.setitem, Np.in_bounds.
  apply Nat.ltb_lt in Hr as ->. apply Nat.ltb_lt in Hc as ->.
  by apply Nat.ltb_lt in Hi as ->.
Qed.

Lemma cell_set_cell_eq A r c i v :
  Np.wf A → r < Np.dim0 A → c < Np.dim1 A → i < Np.dim2 A →
  Np.cell (Np.set_cell A r c i v) r c i = Some v.
Proof.
  intros. unfold Np.cell, Np.set_cell, Np.offset. simpl.
  apply list_lookup_insert_eq. by apply offset_lt.
Qed.

Lemma cell_set_cell_ne A r c i v r' c' i' :
  c < Np.dim1 A → i < Np.dim2 A → c' < Np.dim1 A → i' < Np.dim2 A →
  (r, c, i) ≠ (r', c', i') →
  Np.cell (Np.set_cell A r c i v) r' c' i' = Np.cell A r' c' i'.
Proof.
  intros ???? Hne. unfold Np.cell, Np.set_cell. simpl.
  apply list_lookup_insert_ne. intros Heq.
  apply (offset_inj A) in Heq as (-> & -> & ->); done.
Qed.

Lemma cell_set_cell A d0 d1 d2 r c i v r' c' i' :
  Np.has_shape A d0 d1 d2 →
  r < d0 → c < d1 → i < d2 → c' < d1 → i' < d2 →
  Np.cell (Np.set_cell A r c i v) r' c' i'
  = if decide (r = r' ∧ c = c' ∧ i = i') then Some v else Np.cell A r' c' i'.
Proof.
  intros (<- & <- & <- & Hwf) Hr Hc Hi Hc' Hi'.
  case_decide as Heq.
  - destruct Heq as (<- & <- & <-). by apply cell_set_cell_eq.
  - apply cell_set_cell_ne; [done .. |]. intros [= -> -> ->]. tauto.
Qed.

(** Every position of the buffer is the offset of one cell. *)
Lemma offset_surj A k :
  Np.wf A → k < length (Np.buf A) →
  ∃ r c i, r < Np.dim0 A ∧ c < Np.dim1 A ∧ i < Np.dim2 A ∧
           k = Np.offset A r c i.
Proof.
  unfold Np.wf, Np.offset. intros -> Hk.
  assert (Np.dim2 A ≠ 0) by (intros Hz; rewrite Hz in Hk; lia).
  assert (Np.dim1 A ≠ 0) by (intros Hz; rewrite Hz in Hk; lia).
  exists ((k `div` Np.dim2 A) `div` Np.dim1 A),
         ((k `div` Np.dim2 A) `mod` Np.dim1 A), (k `mod` Np.dim2 A).
  pose proof (Nat.div_mod k (Np.dim2 A)) as E1.
  pose proof (Nat.div_mod (k `div` Np.dim2 A) (Np.dim1 A)) as E2.
  pose proof (Nat.mod_upper_bound k (Np.dim2 A)).
  pose proof (Nat.mod_upper_bound (k `div` Np.dim2 A) (Np.dim1 A)).
  repeat split; [| lia | lia | nia].
  apply Nat.Div0.div_lt_upper_bound. apply Nat.Div0.div_lt_upper_bound. lia.
Qed.

(** Arrays of one shape with the same cells are the same array. *)
Lemma ndarray_ext A B d0 d1 d2 :
  Np.has_shape A d0 d1 d2 → Np.has_shape B d0 d1 d2 →
  (∀ r c i, r < d0 → c < d1 → i < d2 → Np.cell A r c i = Np.cell B r c i) →
  A = B.
Proof.
  intros (HA0 & HA1 & HA2 & HwA) (HB0 & HB1 & HB2 & HwB) Hcells.
  assert (length (Np.buf A) = length (Np.buf B)) as Hlen.
  { rewrite HwA, HwB. congruence. }
  assert (Np.buf A = Np.buf B) as Hbuf.
  { apply list_eq. intros k.
    destruct (decide (k < length (Np.buf A))) as [Hk|Hk].
    - destruct (offset_surj A k HwA Hk) as (r & c & i & Hr & Hc & Hi & ->).
      specialize (Hcells r c i). unfold Np.cell, Np.offset in *.
      rewrite HB1, HB2, <- HA1, <- HA2 in Hcells.
      apply Hcells; lia.
    - rewrite !lookup_ge_None_2; [done | lia | lia]. }
  destruct A, B; simpl in *; congruence.
Qed.

Lemma slice_last_of_cells A j a00 a01 a02 a10 a11 a12 a20 a21 a22 :
  Np.dim0 A = 3 → Np.dim1 A = 3 → j < Np.dim2 A →
  Np.cell A 0 0 j = Some a00 → Np.cell A 0 1 j = Some a01 →
  Np.cell A 0 2 j = Some a02 → Np.cell A 1 0 j = Some a10 →
  Np.cell A 1 1 j = Some a11 → Np.cell A 1 2 j = Some a12 →
  Np.cell A 2 0 j = Some a20 → Np.cell A 2 1 j = Some a21 →
  Np.cell A 2 2 j = Some a22 →
  Np.slice_last A j
  = Ok [[a00; a01; a02]; [a10; a11; a12]; [a20; a21; a22]].
Proof.
  intros H0 H1 Hj E00 E01 E02 E10 E11 E12 E20 E21 E22.
  unfold Np.slice_last. rewrite H0, H1.
  apply Nat.ltb_lt in Hj as ->. simpl.
  by rewrite E00, E01, E02, E10, E11, E12, E20, E21, E22.
Qed.

Lemma slice_last_out_of_range A j :
  Np.dim2 A ≤ j → Np.slice_last A j = Raise IndexError.
Proof.
  intros Hj. unfold Np.slice_last.
  by apply Nat.ltb_ge in Hj as ->.
Qed.

End NdarrayFacts.

(** ** The parser *)
Section ParserFacts.
Context {float : Type}.
Variable py_float : string → option float.
Variables zero one : float.
Implicit Types A : Np.ndarray float.
Implicit Types vs : float * float * float * float * float * float.

Ltac shape_tac :=
  repeat (apply set_cell_shape); eassumption.

Lemma store_frame_shape A i vs N :
  Np.has_shape A 3 3 N → Np.has_shape (store_frame zero one A i vs) 3 3 N.
Proof.
  intros HA. destruct vs as [[[[[v0 v1] v2] v3] v4] v5].
  unfold store_frame. shape_tac.
Qed.

Lemma store_frame_cell A i vs N r c j :
  Np.has_shape A 3 3 N → i < N → j < N → r < 3 → c < 3 →
  Np.cell (store_frame zero one A i vs) r c j
  = if decide (j = i) then entry (frame_matrix zero one vs) r c
    else Np.cell A r c j.
Proof.
  intros HA Hi Hj Hr Hc.
  destruct vs as [[[[[v0 v1] v2] v3] v4] v5].
  unfold store_frame, frame_matrix, entry.
  repeat (rewrite (cell_set_cell _ 3 3 N) by first [shape_tac | lia]).
  destruct r as [|[|[|?]]]; try lia;
    destruct c as [|[|[|?]]]; try lia;
    repeat case_decide; try lia; reflexivity.
Qed.

Lemma loop_body_eq line A i N :
  Np.has_shape A 3 3 N → i < N →
  loop_body py_float zero one line (A, i)
  = vs ← line_values py_float line; Ok (store_frame zero one A i vs, i + 1).
Proof.
  intros HA Hi. unfold loop_body, line_values, tokens_values, store_frame.
  repeat (match goal with
          | |- context [item ?l ?k ≫= float_ py_float] =>
              destruct (item l k ≫= float_ py_float);
              cbn [mbind result_bind]; [| done];
              rewrite (setitem_ok _ 3 3 N) by first [shape_tac | lia];
              cbn [mbind result_bind]
          end).
  repeat (rewrite (setitem_ok _ 3 3 N) by first [shape_tac | lia];
          cbn [mbind result_bind]).
  done.
Qed.

(** *** Tokens of one line *)

Lemma tokens_error_None n values :
  tokens_error py_float n values = None
  ↔ n ≤ length values ∧ Forall (numeric py_float) (take n values).
Proof.
  revert values. induction n as [|n IH]; intros values; simpl.
  { split; [intros _; split; [lia | constructor] | done]. }
  destruct values as [|t rest]; simpl.
  { split; [done | intros [? _]; lia]. }
  unfold numeric at 1. rewrite Forall_cons.
  destruct (py_float t) as [v|]; simpl.
  - rewrite IH. split; [intros [? ?]; repeat split; eauto; lia |].
    intros (? & _ & ?). split; [lia | done].
  - split; [done | intros (_ & [? ?] & _); done].
Qed.

Lemma tokens_error_ValueError n values :
  tokens_error py_float n values = Some ValueError
  ↔ Exists (λ t, py_float t = None) (take n values).
Proof.
  revert values. induction n as [|n IH]; intros values; simpl.
  { split; [done | by intros ?%Exists_nil]. }
  destruct values as [|t rest]; simpl.
  { split; [done | by intros ?%Exists_nil]. }
  rewrite Exists_cons. destruct (py_float t) as [v|]; simpl.
  - rewrite IH. split; [by right | by intros [? | ?]].
  - split; [by left | done].
Qed.

Lemma tokens_error_IndexError n values :
  tokens_error py_float n values = Some IndexError
  ↔ length values < n ∧ Forall (numeric py_float) values.
Proof.
  revert values. induction n as [|n IH]; intros values; simpl.
  { split; [done | intros [? _]; lia]. }
  destruct values as [|t rest]; simpl.
  { split; [intros _; split; [lia | constructor] | done]. }
  unfold numeric at 1. rewrite Forall_cons.
  destruct (py_float t) as [v|]; simpl.
  - rewrite IH. split; [intros [? ?]; repeat split; eauto; lia |].
    intros (? & _ & ?). split; [lia | done].
  - split; [done | intros (_ & [? ?] & _); done].
Qed.

Lemma tokens_error_not_file n values :
  tokens_error py_float n values ≠ Some FileNotFoundError.
Proof.
  revert values. induction n as [|n IH]; intros values; simpl; [done |].
  destruct values as [|t rest]; [done |].
  destruct (py_float t); [apply IH | done].
Qed.

Ltac tokens_cases values :=
  unfold tokens_values, item;
  destruct values as [|? [|? [|? [|? [|? [|? ?]]]]]];
  simpl; unfold float_; repeat (destruct (py_float _); simpl); try done.

(** [tokens_values] fails with exactly the exception of [tokens_error]. *)
Lemma tokens_values_Raise values e :
  tokens_values py_float values = Raise e
  ↔ tokens_error py_float 6 values = Some e.
Proof.
  tokens_cases values;
    (split; intros [= <-]; done).
Qed.

Lemma tokens_values_Ok values :
  (∃ vs, tokens_values py_float values = Ok vs)
  ↔ tokens_error py_float 6 values = None.
Proof.
  tokens_cases values; try (split; [by intros [? ?] | done]).
  split; [done | eauto].
Qed.

(** Only the first six tokens are read. *)
Lemma tokens_values_take values :
  tokens_values py_float values = tokens_values py_float (take 6 values).
Proof.
  unfold tokens_values, item. by rewrite !lookup_take_lt by lia.
Qed.

Lemma tokens_values_six t0 t1 t2 t3 t4 t5 extra v0 v1 v2 v3 v4 v5 :
  py_float t0 = Some v0 → py_float t1 = Some v1 → py_float t2 = Some v2 →
  py_float t3 = Some v3 → py_float t4 = Some v4 → py_float t5 = Some v5 →
  tokens_values py_float (t0 :: t1 :: t2 :: t3 :: t4 :: t5 :: extra)
  = Ok (v0, v1, v2, v3, v4, v5).
Proof.
  intros E0 E1 E2 E3 E4 E5. unfold tokens_values, item, float_. simpl.
  by rewrite E0, E1, E2, E3, E4, E5.
Qed.

Lemma good_line_iff line :
  good_line py_float line ↔ ∃ vs, line_values py_float line = Ok vs.
Proof.
  unfold good_line, line_values.
  by rewrite tokens_values_Ok, tokens_error_None.
Qed.

(** *** Lines of a file *)

Lemma lines_values_Ok lines :
  (∃ vss, lines_values py_float lines = Ok vss)
  ↔ Forall (good_line py_float) lines.
Proof.
  induction lines as [|l ls IH]; simpl.
  { split; [constructor | eauto]. }
  rewrite Forall_cons, good_line_iff, <- IH.
  destruct (line_values py_float l) as [vs|]; simpl.
  - destruct (lines_values py_float ls) as [vss|]; simpl.
    + split; eauto.
    + split; [by intros [? ?] | by intros (_ & ? & ?)].
  - split; [by intros [? ?] | by intros ([? ?] & _)].
Qed.

(** The exception of a file is that of its first line that is not good. *)
Lemma lines_values_Raise lines e :
  lines_values py_float lines = Raise e
  ↔ ∃ pre line post, lines = pre ++ line :: post ∧
      Forall (good_line py_float) pre ∧ line_values py_float line = Raise e.
Proof.
  induction lines as [|l ls IH]; simpl.
  { split; [done | intros (pre & ? & ? & H & _); by destruct pre]. }
  destruct (line_values py_float l) as [vs|e'] eqn:El; simpl.
  - assert (good_line py_float l) as Hl by (apply good_line_iff; eauto).
    destruct (lines_values py_float ls) as [vss|e''] eqn:Els; simpl.
    + split; [done |]. intros (pre & line & post & Heq & Hpre & Hline).
      destruct pre as [|l' pre]; simplify_eq/=; [congruence |].
      apply Forall_cons in Hpre as [_ Hpre].
      assert (Ok vss = Raise e) by (apply IH; eauto 6). done.
    + split.
      * intros [= <-]. destruct (proj1 IH eq_refl)
          as (pre & line & post & -> & Hpre & Hline).
        exists (l :: pre), line, post. repeat split; [by constructor | done].
      * intros (pre & line & post & Heq & Hpre & Hline).
        destruct pre as [|l' pre]; simplify_eq/=; [congruence |].
        apply Forall_cons in Hpre as [_ Hpre]. apply IH. eauto 6.
  - split.
    + intros [= <-]. exists [], l, ls. repeat split; [constructor | done].
    + intros (pre & line & post & Heq & Hpre & Hline).
      destruct pre as [|l' pre]; simplify_eq/=; [congruence |].
      apply Forall_cons in Hpre as [[vs Hvs]%good_line_iff _]. congruence.
Qed.

Lemma store_frames_shape A i vss N :
  Np.has_shape A 3 3 N → Np.has_shape (store_frames zero one A i vss) 3 3 N.
Proof.
  revert A i. induction vss as [|vs vss IH]; intros A i HA; [done |].
  simpl. by apply IH, store_frame_shape.
Qed.

(** Frames outside the written range keep their cells. *)
Lemma store_frames_cell_other A i vss N r c j :
  Np.has_shape A 3 3 N → i + length vss ≤ N → j < N → r < 3 → c < 3 →
  j < i ∨ i + length vss ≤ j →
  Np.cell (store_frames zero one A i vss) r c j = Np.cell A r c j.
Proof.
  revert A i. induction vss as [|vs vss IH]; intros A i HA Hlen Hj Hr Hc Hout;
    [done |].
  simpl in *. rewrite IH by (try apply store_frame_shape; auto; lia).
  rewrite (store_frame_cell A i vs N) by (auto; lia).
  case_decide; [lia | done].
Qed.

(** Frame [i + k] holds the matrix of the [k]-th value tuple. *)
Lemma store_frames_cell A i vss N r c k vs :
  Np.has_shape A 3 3 N → i + length vss ≤ N → r < 3 → c < 3 →
  vss !! k = Some vs →
  Np.cell (store_frames zero one A i vss) r c (i + k)
  = entry (frame_matrix zero one vs) r c.
Proof.
  revert A i k. induction vss as [|vs0 vss IH]; intros A i k HA Hlen Hr Hc Hk;
    [done |].
  simpl in *. destruct k as [|k]; simpl in Hk.
  - injection Hk as ->.
    rewrite (store_frames_cell_other _ _ _ N)
      by (try apply store_frame_shape; auto; lia).
    rewrite (store_frame_cell A i vs N) by (auto; lia).
    case_decide; [done | lia].
  - replace (i + S k) with (i + 1 + k) by lia.
    apply IH; [by apply store_frame_shape | lia | done | done | done].
Qed.

Lemma lines_values_length lines vss :
  lines_values py_float lines = Ok vss → length vss = length lines.
Proof.
  revert vss. induction lines as [|l ls IH]; intros vss H; simpl in H.
  - by injection H as <-.
  - destruct (line_values py_float l); [| done]. simpl in H.
    destruct (lines_values py_float ls) as [vss'|]; [| done]. simpl in H.
    injection H as <-. simpl. f_equal. by apply IH.
Qed.

Lemma lines_values_lookup lines vss k vs :
  lines_values py_float lines = Ok vss → vss !! k = Some vs →
  ∃ line, lines !! k = Some line ∧ line_values py_float line = Ok vs.
Proof.
  revert vss k. induction lines as [|l ls IH]; intros vss k H Hk; simpl in H.
  - injection H as <-. done.
  - destruct (line_values py_float l) as [vs0|] eqn:El; [| done]. simpl in H.
    destruct (lines_values py_float ls) as [vss'|]; [| done]. simpl in H.
    injection H as <-. destruct k as [|k]; simpl in *.
    + injection Hk as <-. eauto.
    + eapply IH; eauto.
Qed.

Lemma for_lines_eq lines A i N :
  Np.has_shape A 3 3 N → i + length lines ≤ N →
  for_lines py_float zero one lines (A, i)
  = vss ← lines_values py_float lines;
    Ok (store_frames zero one A i vss, i + length lines).
Proof.
  revert A i. induction lines as [|l ls IH]; intros A i HA Hlen;
    cbn [for_lines lines_values length mbind result_bind] in *.
  - do 2 f_equal. lia.
  - rewrite (loop_body_eq l A i N) by (auto; lia).
    destruct (line_values py_float l) as [vs|]; [| done].
    cbn [mbind result_bind].
    rewrite IH by (try apply store_frame_shape; auto; lia).
    destruct (lines_values py_float ls) as [vss|]; [| done].
    cbn [mbind result_bind store_frames]. do 2 f_equal. lia.
Qed.

Variable mem : nat → float.
Variable fs : gmap string string.

(** The parser as a pipeline: read, convert every line, store. *)
Lemma formatTransformationMatrix_eq matrixFile :
  formatTransformationMatrix py_float zero one mem fs matrixFile
  = lines ← open_readlines fs matrixFile;
    vss ← lines_values py_float lines;
    Ok (store_frames zero one (Np.empty mem 3 3 (length lines)) 0 vss).
Proof.
  unfold formatTransformationMatrix.
  destruct (open_readlines fs matrixFile) as [lines|]; [| done].
  cbn [mbind result_bind].
  rewrite (for_lines_eq lines _ 0 (length lines))
    by (try apply empty_shape; lia).
  by destruct (lines_values py_float lines).
Qed.

End ParserFacts.

(** ** Text *)
Section TextFacts.

Lemma flush_nil cur : PyStr.flush cur = [] ↔ cur = EmptyString.
Proof. destruct cur; simpl; split; done. Qed.

Lemma split_go_nil cur s :
  PyStr.split_go cur s = [] ↔ cur = EmptyString ∧ PyStr.all_space s = true.
Proof.
  revert cur. induction s as [|c s IH]; intros cur; simpl.
  - rewrite flush_nil. tauto.
  - destruct (PyStr.isspace c); simpl.
    + rewrite app_nil, flush_nil, IH. tauto.
    + rewrite IH. split; [by intros [? _] | by intros [_ ?]].
Qed.

(** A line has no token exactly when it is empty or all whitespace. *)
Lemma split_nil line :
  PyStr.split line = [] ↔ PyStr.all_space line = true.
Proof. unfold PyStr.split. rewrite split_go_nil. tauto. Qed.

End TextFacts.

(** ** The applier *)
Section ApplierFacts.
Context {float : Type}.
Variables zero one : float.
Implicit Types A : Np.ndarray float.
Implicit Types ts series : TiltSeries float.
Implicit Types out pre post : list (TiltSeries float).
Implicit Types tiltImage newTi : TiltImage float.
Implicit Types tiltImages frames : list (TiltImage float).

Lemma extend_nil series : extend [] series = series.
Proof. destruct series. unfold extend. simpl. by rewrite app_nil_r. Qed.

Lemma extend_append frames newTi series :
  extend frames (series_append newTi series) = extend (newTi :: frames) series.
Proof. unfold extend, series_append. simpl. by rewrite <- app_assoc. Qed.

(** The new frame is the source frame with its transform replaced. *)
Lemma new_frame tiltImage t :
  setTransform
    (setLocation (copyInfo TiltImage_new tiltImage true)
                 (getLocation tiltImage)) t
  = setTransform tiltImage t.
Proof. by destruct tiltImage. Qed.

Lemma alter_middle (f : TiltSeries float → TiltSeries float) pre series post :
  alter f (length pre) (pre ++ series :: post) = pre ++ f series :: post.
Proof. induction pre as [|x pre IH]; simpl; [done | by f_equal]. Qed.

Lemma for_tiltImages_eq A index tiltImages pre series post :
  for_tiltImages zero one A (length pre) index tiltImages
                 (pre ++ series :: post)
  = (attach_status A index tiltImages,
     pre ++ extend (attach A index tiltImages) series :: post).
Proof.
  revert index series.
  induction tiltImages as [|ti rest IH]; intros index series; simpl.
  { by rewrite extend_nil. }
  destruct (Np.slice_last A index) as [m|e].
  - rewrite new_frame. unfold setMatrix.
    rewrite alter_middle, IH. by rewrite extend_append.
  - by rewrite extend_nil.
Qed.

(** The applier in one equation. *)
Lemma applyStack_eq A ts out :
  applyStack zero one A ts out
  = (attach_status A 0 (items ts),
     out ++ [{| series_tsId := series_tsId ts;
                series_samplingRate := series_samplingRate ts;
                items := attach A 0 (items ts) |}]).
Proof. unfold applyStack. by rewrite for_tiltImages_eq. Qed.

Lemma slice_last_ok A N j :
  Np.has_shape A 3 3 N → j < N → ∃ m, Np.slice_last A j = Ok m.
Proof.
  intros (H0 & H1 & H2 & Hwf) Hj.
  assert (∀ r c, r < 3 → c < 3 → is_Some (Np.cell A r c j)) as Hc.
  { intros r c Hr Hc. apply lookup_lt_is_Some. apply offset_lt; [done | lia ..]. }
  destruct (Hc 0 0) as [a00 E00]; [lia .. |].
  destruct (Hc 0 1) as [a01 E01]; [lia .. |].
  destruct (Hc 0 2) as [a02 E02]; [lia .. |].
  destruct (Hc 1 0) as [a10 E10]; [lia .. |].
  destruct (Hc 1 1) as [a11 E11]; [lia .. |].
  destruct (Hc 1 2) as [a12 E12]; [lia .. |].
  destruct (Hc 2 0) as [a20 E20]; [lia .. |].
  destruct (Hc 2 1) as [a21 E21]; [lia .. |].
  destruct (Hc 2 2) as [a22 E22]; [lia .. |].
  eexists. apply slice_last_of_cells; eauto; lia.
Qed.

Lemma attach_status_Ok A N index tiltImages :
  Np.has_shape A 3 3 N → index + length tiltImages ≤ N →
  attach_status A index tiltImages = Ok ().
Proof.
  intros HA. revert index.
  induction tiltImages as [|ti rest IH]; intros index Hlen; simpl in *; [done |].
  destruct (slice_last_ok A N index HA) as [m ->]; [lia |].
  apply IH. lia.
Qed.

Lemma attach_status_Raise A N index tiltImages :
  Np.has_shape A 3 3 N → index ≤ N → N < index + length tiltImages →
  attach_status A index tiltImages = Raise IndexError.
Proof.
  intros HA. revert index.
  induction tiltImages as [|ti rest IH]; intros index Hle Hlen; simpl in *;
    [lia |].
  destruct (decide (index < N)) as [Hlt|Hge].
  - destruct (slice_last_ok A N index HA Hlt) as [m ->]. apply IH; lia.
  - rewrite slice_last_out_of_range; [done |].
    destruct HA as (_ & _ & -> & _). lia.
Qed.

Lemma attach_length A N index tiltImages :
  Np.has_shape A 3 3 N → index ≤ N →
  length (attach A index tiltImages) = length tiltImages `min` (N - index).
Proof.
  intros HA. revert index.
  induction tiltImages as [|ti rest IH]; intros index Hle;
    cbn [attach length]; [done |].
  destruct (decide (index < N)) as [Hlt|Hge].
  - destruct (slice_last_ok A N index HA Hlt) as [m ->]. cbn [length].
    rewrite IH by lia. lia.
  - rewrite slice_last_out_of_range; [cbn [length]; lia |].
    destruct HA as (_ & _ & -> & _). lia.
Qed.

Lemma attach_lookup A N index tiltImages k tiltImage :
  Np.has_shape A 3 3 N → tiltImages !! k = Some tiltImage → index + k < N →
  ∃ m, Np.slice_last A (index + k) = Ok m ∧
       attach A index tiltImages !! k = Some (frame_of tiltImage m).
Proof.
  intros HA. revert index k.
  induction tiltImages as [|ti rest IH]; intros index k Hk Hlt; [done |].
  simpl. destruct (slice_last_ok A N index HA) as [m Hm]; [lia |].
  rewrite Hm. destruct k as [|k]; simpl in *.
  - injection Hk as ->. exists m. by rewrite Nat.add_0_r.
  - replace (index + S k) with (index + 1 + k) by lia. apply IH; [done | lia].
Qed.

End ApplierFacts.

(** ** Results of the parser *)
Section ParserResults.
Context {float : Type}.
Variable py_float : string → option float.
Variables zero one : float.
Implicit Types A : Np.ndarray float.
Implicit Types vs : float * float * float * float * float * float.
Implicit Types mem : nat → float.
Implicit Types fs : gmap string string.

Lemma getitem_of_cell A d0 d1 d2 r c i v :
  Np.has_shape A d0 d1 d2 → r < d0 → c < d1 → i < d2 →
  Np.cell A r c i = Some v → Np.getitem A r c i = Ok v.
Proof.
  intros (<- & <- & <- & _) Hr Hc Hi E. unfold Np.getitem, Np.in_bounds.
  apply Nat.ltb_lt in Hr as ->. apply Nat.ltb_lt in Hc as ->.
  apply Nat.ltb_lt in Hi as ->. simpl. by rewrite E.
Qed.

Lemma store_frames_cell0 A N vss r c k vs :
  Np.has_shape A 3 3 N → length vss ≤ N → r < 3 → c < 3 →
  vss !! k = Some vs →
  Np.cell (store_frames zero one A 0 vss) r c k
  = entry (frame_matrix zero one vs) r c.
Proof.
  intros. by apply (store_frames_cell zero one A 0 vss N r c k vs).
Qed.

Lemma store_frames_slice A N vss k vs :
  Np.has_shape A 3 3 N → length vss ≤ N → vss !! k = Some vs →
  Np.slice_last (store_frames zero one A 0 vss) k
  = Ok (frame_matrix zero one vs).
Proof.
  intros HA Hlen Hk.
  assert (k < N) as HkN by (apply lookup_lt_Some in Hk; lia).
  pose proof (store_frames_shape zero one A 0 vss N HA) as (H0 & H1 & H2 & _).
  assert (∀ r c, r < 3 → c < 3 →
            Np.cell (store_frames zero one A 0 vss) r c k
            = entry (frame_matrix zero one vs) r c) as Hcell.
  { intros r c Hr Hc. by apply (store_frames_cell0 A N). }
  destruct vs as [[[[[v0 v1] v2] v3] v4] v5].
  apply slice_last_of_cells; [done | done | lia | ..];
    rewrite Hcell by lia; reflexivity.
Qed.

(** The stored frames do not depend on what the array held before. *)
Lemma store_frames_full A B N vss :
  Np.has_shape A 3 3 N → Np.has_shape B 3 3 N → length vss = N →
  store_frames zero one A 0 vss = store_frames zero one B 0 vss.
Proof.
  intros HA HB Hlen. apply (ndarray_ext _ _ 3 3 N);
    [by apply store_frames_shape .. |].
  intros r c i Hr Hc Hi.
  destruct (lookup_lt_is_Some_2 vss i) as [vs Hvs]; [lia |].
  rewrite (store_frames_cell0 A N vss r c i vs) by (auto; lia).
  by rewrite (store_frames_cell0 B N vss r c i vs) by (auto; lia).
Qed.

Lemma open_readlines_Some fs matrixFile content :
  fs !! matrixFile = Some content →
  open_readlines fs matrixFile = Ok (PyStr.readlines content).
Proof. unfold open_readlines. by intros ->. Qed.

Lemma open_readlines_Ok fs matrixFile lines :
  open_readlines fs matrixFile = Ok lines →
  ∃ content, fs !! matrixFile = Some content ∧ lines = PyStr.readlines content.
Proof.
  unfold open_readlines. destruct (fs !! matrixFile) as [content|]; [| done].
  intros [= <-]. eauto.
Qed.

(** A file whose lines all convert is parsed into the array of its frames. *)
Lemma parse_ok mem fs matrixFile content vss :
  fs !! matrixFile = Some content →
  lines_values py_float (PyStr.readlines content) = Ok vss →
  ∃ A, formatTransformationMatrix py_float zero one mem fs matrixFile = Ok A ∧
       Np.has_shape A 3 3 (length (PyStr.readlines content)) ∧
       ∀ i vs, vss !! i = Some vs →
         Np.slice_last A i = Ok (frame_matrix zero one vs) ∧
         ∀ r c, r < 3 → c < 3 →
           Np.cell A r c i = entry (frame_matrix zero one vs) r c.
Proof.
  intros Hfs Hvss. pose proof (lines_values_length _ _ _ Hvss) as Hlen.
  set (N := length (PyStr.readlines content)) in *.
  exists (store_frames zero one (Np.empty mem 3 3 N) 0 vss).
  rewrite formatTransformationMatrix_eq, (open_readlines_Some _ _ _ Hfs).
  cbn [mbind result_bind]. rewrite Hvss. cbn [mbind result_bind].
  split; [done |]. split; [apply store_frames_shape, empty_shape |].
  intros i vs Hi. split.
  - apply (store_frames_slice _ N); [apply empty_shape | lia | done].
  - intros r c Hr Hc.
    apply (store_frames_cell0 _ N); [apply empty_shape | lia | done ..].
Qed.

(** Conversely, a returned array comes from lines that all convert. *)
Lemma parse_Ok_inv mem fs matrixFile A :
  formatTransformationMatrix py_float zero one mem fs matrixFile = Ok A →
  ∃ content vss, fs !! matrixFile = Some content ∧
    lines_values py_float (PyStr.readlines content) = Ok vss.
Proof.
  rewrite formatTransformationMatrix_eq.
  destruct (open_readlines fs matrixFile) as [lines|] eqn:Ho; [| done].
  apply open_readlines_Ok in Ho as (content & Hfs & ->).
  cbn [mbind result_bind].
  destruct (lines_values py_float (PyStr.readlines content)) as [vss|] eqn:E;
    [| done].
  eauto.
Qed.

Lemma parse_Raise mem fs matrixFile content e :
  fs !! matrixFile = Some content →
  formatTransformationMatrix py_float zero one mem fs matrixFile = Raise e
  ↔ lines_values py_float (PyStr.readlines content) = Raise e.
Proof.
  intros Hfs.
  rewrite formatTransformationMatrix_eq, (open_readlines_Some _ _ _ Hfs).
  cbn [mbind result_bind].
  destruct (lines_values py_float (PyStr.readlines content));
    cbn [mbind result_bind]; split; intros [= <-]; done.
Qed.

End ParserResults.

(** ** More on lines and frames *)
Section LineFacts.
Context {float : Type}.
Variable py_float : string → option float.
Variables zero one : float.
Implicit Types A : Np.ndarray float.
Implicit Types tiltImages : list (TiltImage float).

(** How reading one line fails. *)
Lemma line_values_Raise line e :
  line_values py_float line = Raise e
  ↔ (e = IndexError ∧ length (PyStr.split line) < 6 ∧
     Forall (numeric py_float) (PyStr.split line))
    ∨ (e = ValueError ∧
       Exists (λ t, py_float t = None) (take 6 (PyStr.split line))).
Proof.
  unfold line_values. rewrite tokens_values_Raise.
  rewrite <- tokens_error_IndexError, <- tokens_error_ValueError.
  pose proof (tokens_error_not_file py_float 6 (PyStr.split line)) as Hnf.
  split.
  - intros H. destruct e; [left | right | congruence]; by rewrite H.
  - intros [[-> H] | [-> H]]; done.
Qed.

(** A line fails when it is short or holds a token that is not a number. *)
Lemma line_values_fails line :
  (∃ e, line_values py_float line = Raise e)
  ↔ length (PyStr.split line) < 6
    ∨ Exists (λ t, py_float t = None) (take 6 (PyStr.split line)).
Proof.
  split.
  - intros [e [(_ & H & _) | (_ & H)]%line_values_Raise]; tauto.
  - intros H. destruct (line_values py_float line) as [vs|e] eqn:E; [| eauto].
    assert (good_line py_float line) as [Hlen Hnum]
      by (apply good_line_iff; eauto).
    destruct H as [H | H]; [lia |].
    apply Exists_exists in H as (t & Ht & Hnone).
    rewrite Forall_forall in Hnum. destruct (Hnum t Ht) as [v Hv]. congruence.
Qed.

Lemma lines_values_lookup_line lines vss i line :
  lines_values py_float lines = Ok vss → lines !! i = Some line →
  ∃ vs, vss !! i = Some vs ∧ line_values py_float line = Ok vs.
Proof.
  intros Hvss Hi. pose proof (lines_values_length _ _ _ Hvss) as Hlen.
  destruct (lookup_lt_is_Some_2 vss i) as [vs Hvs].
  { apply lookup_lt_Some in Hi. lia. }
  destruct (lines_values_lookup _ _ _ _ _ Hvss Hvs) as (line' & Hl & Hv).
  exists vs. split; [done | congruence].
Qed.

(** Lines with the same first six tokens convert alike. *)
Lemma lines_values_ext lines1 lines2 :
  Forall2 (λ l1 l2, take 6 (PyStr.split l1) = take 6 (PyStr.split l2))
          lines1 lines2 →
  lines_values py_float lines1 = lines_values py_float lines2.
Proof.
  induction 1 as [|l1 l2 ls1 ls2 Hl _ IH]; simpl; [done |].
  unfold line_values.
  rewrite (tokens_values_take _ (PyStr.split l1)), Hl, <- tokens_values_take.
  by rewrite IH.
Qed.

Lemma attach_idem A index tiltImages :
  attach A index (attach A index tiltImages) = attach A index tiltImages.
Proof.
  revert index. induction tiltImages as [|ti rest IH]; intros index; simpl;
    [done |].
  destruct (Np.slice_last A index) as [m|e] eqn:E; simpl; [| done].
  by rewrite E, IH.
Qed.

End LineFacts.

(** * The claims *)
Section Claims.
Context {float : Type}.
Variable py_float : string → option float.
Variables zero one : float.
Implicit Types A : Np.ndarray float.
Implicit Types mem : nat → float.
Implicit Types fs : gmap string string.
Implicit Types ts : TiltSeries float.
Implicit Types out : list (TiltSeries float).

(** C4: a well-formed transform file of N lines is parsed into a stack of
    exactly N transforms; entry i is the matrix built from line i, in file
    order, and there is no entry at index N or beyond. *)
Theorem C4_length_and_order mem fs matrixFile content :
  fs !! matrixFile = Some content →
  Forall (good_line py_float) (PyStr.readlines content) →
  ∃ A, formatTransformationMatrix py_float zero one mem fs matrixFile = Ok A ∧
       Np.has_shape A 3 3 (length (PyStr.readlines content)) ∧
       (∀ i line, PyStr.readlines content !! i = Some line →
          ∃ vs, line_values py_float line = Ok vs ∧
                Np.slice_last A i = Ok (frame_matrix zero one vs)) ∧
       (∀ i, length (PyStr.readlines content) ≤ i →
          Np.slice_last A i = Raise IndexError).
Proof.
  intros Hfs [vss Hvss]%lines_values_Ok.
  destruct (parse_ok py_float zero one mem fs matrixFile content vss Hfs Hvss)
    as (A & HA & Hshape & Hframes).
  exists A. repeat split; try apply Hshape; [done | |].
  - intros i line Hline.
    destruct (lines_values_lookup_line _ _ _ _ _ Hvss Hline) as (vs & Hvs & Hl).
    exists vs. split; [done |]. by apply Hframes.
  - intros i Hi. apply slice_last_out_of_range.
    destruct Hshape as (_ & _ & -> & _). done.
Qed.

(** C6: in every stack returned by the parser, every frame has the bottom
    row [0, 0, 1]: cells [2,0] and [2,1] hold 0.0 and cell [2,2] holds 1.0. *)
Theorem C6_bottom_row mem fs matrixFile A i :
  formatTransformationMatrix py_float zero one mem fs matrixFile = Ok A →
  i < Np.dim2 A →
  Np.getitem A 2 0 i = Ok zero ∧ Np.getitem A 2 1 i = Ok zero ∧
  Np.getitem A 2 2 i = Ok one ∧
  ∃ m, Np.slice_last A i = Ok m ∧ m !! 2 = Some [zero; zero; one].
Proof.
  intros HA Hi.
  destruct (parse_Ok_inv _ _ _ _ _ _ _ HA) as (content & vss & Hfs & Hvss).
  destruct (parse_ok py_float zero one mem fs matrixFile content vss Hfs Hvss)
    as (A' & HA' & Hshape & Hframes).
  assert (A' = A) as -> by congruence.
  pose proof (lines_values_length _ _ _ Hvss) as Hlen.
  pose proof Hshape as (_ & _ & Hd2 & _).
  destruct (lookup_lt_is_Some_2 vss i) as [vs Hvs]; [lia |].
  destruct (Hframes i vs Hvs) as [Hslice Hcell].
  destruct vs as [[[[[v0 v1] v2] v3] v4] v5].
  repeat split.
  - apply (getitem_of_cell A 3 3 _ 2 0 i zero Hshape); [lia .. |].
    by rewrite Hcell by lia.
  - apply (getitem_of_cell A 3 3 _ 2 1 i zero Hshape); [lia .. |].
    by rewrite Hcell by lia.
  - apply (getitem_of_cell A 3 3 _ 2 2 i one Hshape); [lia .. |].
    by rewrite Hcell by lia.
  - eexists. split; [exact Hslice | done].
Qed.

(** C10: parsing is deterministic; the result is fixed by the content of
    the file, whatever the allocated memory held and whatever else the
    working directory contains. *)
Theorem C10_deterministic mem1 mem2 fs1 fs2 f1 f2 content :
  fs1 !! f1 = Some content → fs2 !! f2 = Some content →
  formatTransformationMatrix py_float zero one mem1 fs1 f1
  = formatTransformationMatrix py_float zero one mem2 fs2 f2.
Proof.
  intros H1 H2. rewrite !formatTransformationMatrix_eq.
  rewrite (open_readlines_Some _ _ _ H1), (open_readlines_Some _ _ _ H2).
  cbn [mbind result_bind].
  destruct (lines_values py_float (PyStr.readlines content)) as [vss|] eqn:E;
    [| done].
  cbn [mbind result_bind]. f_equal.
  apply (store_frames_full _ _ _ _ (length (PyStr.readlines content)));
    [apply empty_shape .. |].
  by apply lines_values_length in E.
Qed.

(** C1: when the file parses, a line whose first six tokens read
    v0..v5 gives the frame with [0,0] = v0, [1,0] = v1, [0,1] = v2,
    [1,1] = v3, [0,2] = v4, [1,2] = v5 and bottom row [0, 0, 1]; a file of
    one such line gives exactly that matrix; and the two-line scenario
    gives a stack of 2 whose first matrix is
    [[1.0, 0.0, 2.5], [0.0, 1.0, -1.5], [0, 0, 1]]. *)
Theorem C1_field_mapping :
  (∀ mem fs matrixFile content,
     fs !! matrixFile = Some content →
     Forall (good_line py_float) (PyStr.readlines content) →
     ∃ A, formatTransformationMatrix py_float zero one mem fs matrixFile = Ok A ∧
       ∀ i line t0 t1 t2 t3 t4 t5 extra v0 v1 v2 v3 v4 v5,
         PyStr.readlines content !! i = Some line →
         PyStr.split line = t0 :: t1 :: t2 :: t3 :: t4 :: t5 :: extra →
         py_float t0 = Some v0 → py_float t1 = Some v1 →
         py_float t2 = Some v2 → py_float t3 = Some v3 →
         py_float t4 = Some v4 → py_float t5 = Some v5 →
         Np.getitem A 0 0 i = Ok v0 ∧ Np.getitem A 1 0 i = Ok v1 ∧
         Np.getitem A 0 1 i = Ok v2 ∧ Np.getitem A 1 1 i = Ok v3 ∧
         Np.getitem A 0 2 i = Ok v4 ∧ Np.getitem A 1 2 i = Ok v5 ∧
         Np.getitem A 2 0 i = Ok zero ∧ Np.getitem A 2 1 i = Ok zero ∧
         Np.getitem A 2 2 i = Ok one ∧
         Np.slice_last A i
         = Ok [[v0; v2; v4]; [v1; v3; v5]; [zero; zero; one]])
  ∧ (∀ mem fs matrixFile content line t0 t1 t2 t3 t4 t5 v0 v1 v2 v3 v4 v5,
       fs !! matrixFile = Some content →
       PyStr.readlines content = [line] →
       PyStr.split line = [t0; t1; t2; t3; t4; t5] →
       py_float t0 = Some v0 → py_float t1 = Some v1 →
       py_float t2 = Some v2 → py_float t3 = Some v3 →
       py_float t4 = Some v4 → py_float t5 = Some v5 →
       formatTransformationMatrix py_float zero one mem fs matrixFile
       = Ok (Np.Ndarray 3 3 1 [v0; v2; v4; v1; v3; v5; zero; zero; one]) ∧
       Np.slice_last (Np.Ndarray 3 3 1 [v0; v2; v4; v1; v3; v5; zero; zero; one]) 0
       = Ok [[v0; v2; v4]; [v1; v3; v5]; [zero; zero; one]])
  ∧ (∀ m, ∃ stack,
       formatTransformationMatrix PyFloat.of_string PyFloat.zero PyFloat.one
                                  m Sample.fs Sample.path = Ok stack ∧
       Np.has_shape stack 3 3 2 ∧
       Np.slice_last stack 0 = Ok Sample.first_matrix).
Proof.
  split; [| split].
  - intros mem fs matrixFile content Hfs [vss Hvss]%lines_values_Ok.
    destruct (parse_ok py_float zero one mem fs matrixFile content vss Hfs Hvss)
      as (A & HA & Hshape & Hframes).
    exists A. split; [done |].
    intros i line t0 t1 t2 t3 t4 t5 extra v0 v1 v2 v3 v4 v5
      Hline Hsplit E0 E1 E2 E3 E4 E5.
    destruct (lines_values_lookup_line _ _ _ _ _ Hvss Hline) as (vs & Hvs & Hl).
    unfold line_values in Hl. rewrite Hsplit in Hl.
    rewrite (tokens_values_six py_float _ _ _ _ _ _ _ _ _ _ _ _ _
               E0 E1 E2 E3 E4 E5) in Hl.
    injection Hl as <-.
    destruct (Hframes i _ Hvs) as [Hslice Hcell].
    assert (i < length (PyStr.readlines content)) as Hi
      by (by apply lookup_lt_Some in Hline).
    repeat split;
      try (apply (getitem_of_cell A 3 3 _ _ _ i _ Hshape); [lia .. |];
           by rewrite Hcell by lia).
    exact Hslice.
  - intros mem fs matrixFile content line t0 t1 t2 t3 t4 t5 v0 v1 v2 v3 v4 v5
      Hfs Hlines Hsplit E0 E1 E2 E3 E4 E5.
    split; [| reflexivity].
    rewrite formatTransformationMatrix_eq, (open_readlines_Some _ _ _ Hfs).
    rewrite Hlines. cbn [mbind result_bind lines_values].
    unfold line_values. rewrite Hsplit.
    rewrite (tokens_values_six py_float _ _ _ _ _ _ _ _ _ _ _ _ _
               E0 E1 E2 E3 E4 E5).
    reflexivity.
  - intros m. eexists. split; [| split].
    + vm_compute. reflexivity.
    + repeat split.
    + vm_compute. reflexivity.
Qed.

(** C3 (amended): parsing an existing file fails exactly when one of its
    lines has fewer than six tokens or has a token among its first six that
    [float] rejects; the exception is that of the first such line, an
    [IndexError] for a short line of numbers and a [ValueError] for a
    rejected token; no array is returned then.  A file without lines is
    parsed into the empty 3x3x0 stack. *)
Theorem C3_failure_conditions mem fs matrixFile content :
  fs !! matrixFile = Some content →
  (∀ e, formatTransformationMatrix py_float zero one mem fs matrixFile = Raise e
        ↔ ∃ pre line post,
            PyStr.readlines content = pre ++ line :: post ∧
            Forall (good_line py_float) pre ∧
            ((e = IndexError ∧ length (PyStr.split line) < 6 ∧
              Forall (numeric py_float) (PyStr.split line))
             ∨ (e = ValueError ∧
                Exists (λ t, py_float t = None)
                       (take 6 (PyStr.split line))))) ∧
  ((∃ e, formatTransformationMatrix py_float zero one mem fs matrixFile
         = Raise e)
   ↔ Exists (λ line, length (PyStr.split line) < 6 ∨
                     Exists (λ t, py_float t = None)
                            (take 6 (PyStr.split line)))
            (PyStr.readlines content)) ∧
  (PyStr.readlines content = [] →
   formatTransformationMatrix py_float zero one mem fs matrixFile
   = Ok (Np.Ndarray 3 3 0 [])).
Proof.
  intros Hfs. split; [| split].
  - intros e. rewrite (parse_Raise _ _ _ _ _ _ content e Hfs).
    rewrite lines_values_Raise.
    split; intros (pre & line & post & Heq & Hpre & Hline);
      exists pre, line, post; (split; [done |]); (split; [done |]);
      by apply line_values_Raise.
  - split.
    + intros [e He]. rewrite (parse_Raise _ _ _ _ _ _ content e Hfs) in He.
      apply lines_values_Raise in He
        as (pre & line & post & -> & _ & Hline).
      apply Exists_exists. exists line. split; [set_solver |].
      apply line_values_fails. eauto.
    + intros (line & Hin & Hbad)%Exists_exists.
      destruct (formatTransformationMatrix py_float zero one mem fs matrixFile)
        as [A|e] eqn:E; [| eauto].
      destruct (parse_Ok_inv _ _ _ _ _ _ _ E) as (content' & vss & Hfs' & Hvss).
      assert (content' = content) as -> by congruence.
      assert (Forall (good_line py_float) (PyStr.readlines content)) as Hall
        by (apply lines_values_Ok; eauto).
      rewrite Forall_forall in Hall. specialize (Hall line Hin).
      apply good_line_iff in Hall as [vs Hvs].
      apply line_values_fails in Hbad as [e He]. congruence.
  - intros Hnil.
    rewrite formatTransformationMatrix_eq, (open_readlines_Some _ _ _ Hfs).
    by rewrite Hnil.
Qed.

(** C8: a line with more than six tokens whose first six are numbers is
    read successfully, with the values of its first six tokens, and the
    loop body stores exactly those; a file gives the same result as any
    file whose lines have the same first six tokens. *)
Theorem C8_extra_tokens_ignored :
  (∀ line,
     6 < length (PyStr.split line) →
     Forall (numeric py_float) (take 6 (PyStr.split line)) →
     ∃ vs, tokens_values py_float (take 6 (PyStr.split line)) = Ok vs ∧
           line_values py_float line = Ok vs ∧
           ∀ A i N, Np.has_shape A 3 3 N → i < N →
             loop_body py_float zero one line (A, i)
             = Ok (store_frame zero one A i vs, i + 1))
  ∧ (∀ mem fs1 f1 content1 fs2 f2 content2,
       fs1 !! f1 = Some content1 → fs2 !! f2 = Some content2 →
       Forall2 (λ l1 l2, take 6 (PyStr.split l1) = take 6 (PyStr.split l2))
               (PyStr.readlines content1) (PyStr.readlines content2) →
       formatTransformationMatrix py_float zero one mem fs1 f1
       = formatTransformationMatrix py_float zero one mem fs2 f2).
Proof.
  split.
  - intros line Hlen Hnum.
    assert (good_line py_float line) as [vs Hvs]%good_line_iff
      by (split; [lia | done]).
    exists vs. split; [| split; [done |]].
    + unfold line_values in Hvs. by rewrite <- tokens_values_take.
    + intros A i N HA Hi. rewrite (loop_body_eq _ _ _ _ _ _ N HA Hi).
      by rewrite Hvs.
  - intros mem fs1 f1 content1 fs2 f2 content2 H1 H2 Hlines.
    rewrite !formatTransformationMatrix_eq.
    rewrite (open_readlines_Some _ _ _ H1), (open_readlines_Some _ _ _ H2).
    cbn [mbind result_bind].
    rewrite (lines_values_ext py_float _ _ Hlines).
    by rewrite (Forall2_length _ _ _ Hlines).
Qed.

(** C9: blank lines are not skipped; a file with an empty or
    whitespace-only line fails to parse, and the exception is the
    [IndexError] of reading the first token of that line when the lines
    before it are well formed. *)
Theorem C9_blank_line_fails mem fs matrixFile content pre line post :
  fs !! matrixFile = Some content →
  PyStr.readlines content = pre ++ line :: post →
  PyStr.all_space line = true →
  item (PyStr.split line) 0 = Raise IndexError ∧
  line_values py_float line = Raise IndexError ∧
  (∃ e, formatTransformationMatrix py_float zero one mem fs matrixFile
        = Raise e) ∧
  (Forall (good_line py_float) pre →
   formatTransformationMatrix py_float zero one mem fs matrixFile
   = Raise IndexError).
Proof.
  intros Hfs Hlines Hblank. apply split_nil in Hblank.
  assert (line_values py_float line = Raise IndexError) as Hline
    by (unfold line_values; by rewrite Hblank).
  split; [by rewrite Hblank |]. split; [done |]. split.
  - destruct (formatTransformationMatrix py_float zero one mem fs matrixFile)
      as [A|e] eqn:E; [| eauto].
    destruct (parse_Ok_inv _ _ _ _ _ _ _ E) as (content' & vss & Hfs' & Hvss).
    assert (content' = content) as -> by congruence.
    assert (Forall (good_line py_float) (PyStr.readlines content)) as Hall
      by (apply lines_values_Ok; eauto).
    rewrite Hlines in Hall. apply Forall_app in Hall as [_ Hall].
    apply Forall_cons in Hall as [[vs Hvs]%good_line_iff _]. congruence.
  - intros Hpre. apply (parse_Raise _ _ _ _ _ _ content _ Hfs).
    apply lines_values_Raise. eauto 6.
Qed.

(** C2 (amended): the applier checks no lengths.  For a stack of N
    transforms and a series of M frames it appends a new series to the
    output set and fills it with the first min(M, N) frames, frame i
    carrying transform i; it returns normally when M <= N, the transforms
    from M on being left unused, and raises [IndexError] when N < M, the
    new series and its first N frames staying in the output set.  The
    entries the output set had before are kept in both cases. *)
Theorem C2_no_length_check A N ts out :
  Np.has_shape A 3 3 N →
  ∃ newItems,
    length newItems = length (items ts) `min` N ∧
    (∀ i tiltImage, items ts !! i = Some tiltImage → i < N →
       ∃ m, Np.slice_last A i = Ok m ∧
            newItems !! i = Some (frame_of tiltImage m)) ∧
    (length (items ts) ≤ N →
     applyStack zero one A ts out
     = (Ok (), out ++ [{| series_tsId := series_tsId ts;
                          series_samplingRate := series_samplingRate ts;
                          items := newItems |}])) ∧
    (N < length (items ts) →
     applyStack zero one A ts out
     = (Raise IndexError,
        out ++ [{| series_tsId := series_tsId ts;
                   series_samplingRate := series_samplingRate ts;
                   items := newItems |}])).
Proof.
  intros HA. exists (attach A 0 (items ts)). repeat split.
  - rewrite (attach_length A N) by (done || lia). lia.
  - intros i tiltImage Hi HiN.
    by apply (attach_lookup A N 0 (items ts) i tiltImage HA).
  - intros Hle. rewrite applyStack_eq.
    by rewrite (attach_status_Ok A N) by (done || lia).
  - intros Hlt. rewrite applyStack_eq.
    by rewrite (attach_status_Raise A N) by (done || lia).
Qed.

(** C5: applying a stack of N transforms to a series of N frames returns
    normally and appends one new series with N frames in the order of the
    source; frame i is the source frame i with its transform set to
    stack entry i, and its identifiers, tilt angle, acquisition order,
    sampling rate and location are those of the source frame. *)
Theorem C5_applier A N ts out :
  Np.has_shape A 3 3 N → length (items ts) = N →
  ∃ newItems,
    applyStack zero one A ts out
    = (Ok (), out ++ [{| series_tsId := series_tsId ts;
                         series_samplingRate := series_samplingRate ts;
                         items := newItems |}]) ∧
    length newItems = N ∧
    ∀ i tiltImage, items ts !! i = Some tiltImage →
      ∃ m newTi,
        Np.slice_last A i = Ok m ∧ newItems !! i = Some newTi ∧
        newTi = setTransform tiltImage {| matrix := m |} ∧
        transform newTi = Some {| matrix := m |} ∧
        objId newTi = objId tiltImage ∧ tsId newTi = tsId tiltImage ∧
        tiltAngle newTi = tiltAngle tiltImage ∧
        acqOrder newTi = acqOrder tiltImage ∧
        samplingRate newTi = samplingRate tiltImage ∧
        location newTi = location tiltImage.
Proof.
  intros HA Hlen. exists (attach A 0 (items ts)). repeat split.
  - rewrite applyStack_eq.
    by rewrite (attach_status_Ok A N) by (done || lia).
  - rewrite (attach_length A N) by (done || lia). lia.
  - intros i tiltImage Hi.
    assert (i < N) as HiN by (apply lookup_lt_Some in Hi; lia).
    destruct (attach_lookup A N 0 (items ts) i tiltImage HA Hi)
      as (m & Hm & Hnew); [lia |].
    exists m, (frame_of tiltImage m). by repeat split.
Qed.

(** C7: with a stack and a series of matching length, the series built by
    the applier is the same from every state of the output set, so a second
    application to the same source gives the series of the first; applying
    the stack to the series it built gives that series again. *)
Theorem C7_idempotent A N ts :
  Np.has_shape A 3 3 N → length (items ts) = N →
  ∃ newTs,
    (∀ out, applyStack zero one A ts out = (Ok (), out ++ [newTs])) ∧
    (∀ out, applyStack zero one A ts (out ++ [newTs])
            = (Ok (), out ++ [newTs] ++ [newTs])) ∧
    (∀ out, applyStack zero one A newTs out = (Ok (), out ++ [newTs])).
Proof.
  intros HA Hlen.
  exists {| series_tsId := series_tsId ts;
            series_samplingRate := series_samplingRate ts;
            items := attach A 0 (items ts) |}.
  assert (∀ out, applyStack zero one A ts out
                 = (Ok (), out ++ [{| series_tsId := series_tsId ts;
                      series_samplingRate := series_samplingRate ts;
                      items := attach A 0 (items ts) |}])) as Hfirst.
  { intros out. rewrite applyStack_eq.
    by rewrite (attach_status_Ok A N) by (done || lia). }
  split; [done |]. split.
  - intros out. by rewrite Hfirst, <- app_assoc.
  - intros out. rewrite applyStack_eq. simpl. rewrite attach_idem.
    rewrite (attach_status_Ok A N); [done | done |].
    rewrite (attach_length A N) by (done || lia). lia.
Qed.

End Claims.

(** * The worked example *)

(** The whole output step on the series [TS_01]: both frames receive the
    transform of their line. *)
Example computeXcorrStep_sample :
  ∃ m2,
    Np.slice_last Sample.parsed 1 = Ok m2 ∧
    computeXcorrStep PyFloat.of_string PyFloat.zero PyFloat.one Sample.mem
      Sample.fs (λ p, "extra/" +:+ p) [Sample.ts2] []
    = (Ok (), [Sample.series
                 [frame_of (Sample.image 1 (-60)) Sample.first_matrix;
                  frame_of (Sample.image 2 (-57)) m2]]).
Proof. eexists. split; vm_compute; reflexivity. Qed.

Lemma C1_witness :
  Sample.parse Sample.dir "extra/single.prexg" = Ok Sample.stack1.
Proof.
  refine (proj1 (proj1 (proj2 (C1_field_mapping PyFloat.of_string
            PyFloat.zero PyFloat.one))
          Sample.mem Sample.dir "extra/single.prexg" Sample.single
          Sample.single "1.0" "0.0" "0.0" "1.0" "2.5" "-1.5"
          (PyFloat.dyadic 1 0) PyFloat.zero PyFloat.zero (PyFloat.dyadic 1 0)
          (PyFloat.dyadic 5 (-1)) (PyFloat.dyadic (-3) (-1))
          _ _ _ _ _ _ _ _ _));
    vm_compute; reflexivity.
Defined.

Lemma C2_counterexample :
  Sample.apply Sample.stack2 Sample.ts1 []
  = (Ok (), [Sample.series
               [frame_of (Sample.image 1 (-60)) Sample.first_matrix]]) ∧
  Sample.apply Sample.stack1 Sample.ts2 []
  = (Raise IndexError,
     [Sample.series [frame_of (Sample.image 1 (-60)) Sample.first_matrix]]).
Proof. split; vm_compute; reflexivity. Qed.

Lemma C2_witness :
  Np.has_shape Sample.stack1 3 3 1 ∧
  ∃ newItems,
    length newItems = 1 ∧
    Sample.apply Sample.stack1 Sample.ts2 []
    = (Raise IndexError, [Sample.series newItems]).
Proof.
  assert (Np.has_shape Sample.stack1 3 3 1) as Hshape by (repeat split).
  split; [exact Hshape |].
  destruct (C2_no_length_check PyFloat.zero PyFloat.one Sample.stack1 1
              Sample.ts2 [] Hshape) as (newItems & Hlen & _ & _ & Hraise).
  exists newItems. split; [exact Hlen |]. apply Hraise. simpl. lia.
Defined.

Lemma C3_counterexample :
  Sample.parse Sample.dir "extra/empty.prexg" = Ok (Np.Ndarray 3 3 0 []) ∧
  PyFloat.of_string "foo" = None ∧
  Sample.parse Sample.dir "extra/seven.prexg" = Ok Sample.stack1.
Proof. repeat split; vm_compute; reflexivity. Qed.

Lemma C3_witness :
  Sample.dir !! "extra/empty.prexg" = Some Sample.empty ∧
  Sample.parse Sample.dir "extra/empty.prexg" = Ok (Np.Ndarray 3 3 0 []) ∧
  Sample.dir !! "extra/short.prexg" = Some Sample.short ∧
  ∃ e, Sample.parse Sample.dir "extra/short.prexg" = Raise e.
Proof.
  assert (Sample.dir !! "extra/empty.prexg" = Some Sample.empty) as He
    by (vm_compute; reflexivity).
  assert (Sample.dir !! "extra/short.prexg" = Some Sample.short) as Hs
    by (vm_compute; reflexivity).
  split; [exact He |]. split; [| split; [exact Hs |]].
  - apply (proj2 (proj2 (C3_failure_conditions PyFloat.of_string PyFloat.zero
             PyFloat.one Sample.mem Sample.dir _ _ He))).
    reflexivity.
  - apply (proj2 (proj1 (proj2 (C3_failure_conditions PyFloat.of_string
             PyFloat.zero PyFloat.one Sample.mem Sample.dir _ _ Hs)))).
    apply Exists_cons_hd. left. vm_compute. lia.
Defined.

Lemma C4_witness :
  Sample.fs !! Sample.path = Some Sample.prexg ∧
  Forall (good_line PyFloat.of_string) (PyStr.readlines Sample.prexg) ∧
  ∃ A, Sample.parse Sample.fs Sample.path = Ok A ∧ Np.has_shape A 3 3 2.
Proof.
  assert (Sample.fs !! Sample.path = Some Sample.prexg) as Hfs
    by (vm_compute; reflexivity).
  assert (Forall (good_line PyFloat.of_string)
                 (PyStr.readlines Sample.prexg)) as Hgood
    by (apply (bool_decide_unpack _); vm_compute; exact I).
  split; [exact Hfs |]. split; [exact Hgood |].
  destruct (C4_length_and_order PyFloat.of_string PyFloat.zero PyFloat.one
              Sample.mem Sample.fs Sample.path Sample.prexg Hfs Hgood)
    as (A & HA & Hshape & _).
  exists A. split; [exact HA | exact Hshape].
Defined.

Lemma C5_witness :
  Np.has_shape Sample.stack2 3 3 2 ∧ length (items Sample.ts2) = 2 ∧
  ∃ newItems,
    Sample.apply Sample.stack2 Sample.ts2 [] = (Ok (), [Sample.series newItems]) ∧
    length newItems = 2.
Proof.
  assert (Np.has_shape Sample.stack2 3 3 2) as Hshape by (repeat split).
  split; [exact Hshape |]. split; [reflexivity |].
  destruct (C5_applier PyFloat.zero PyFloat.one Sample.stack2 2 Sample.ts2 []
              Hshape eq_refl) as (newItems & Happly & Hlen & _).
  exists newItems. split; [exact Happly | exact Hlen].
Defined.

Lemma C6_witness :
  Sample.parse Sample.fs Sample.path = Ok Sample.parsed ∧
  Np.getitem Sample.parsed 2 0 1 = Ok PyFloat.zero ∧
  Np.getitem Sample.parsed 2 1 1 = Ok PyFloat.zero ∧
  Np.getitem Sample.parsed 2 2 1 = Ok PyFloat.one.
Proof.
  assert (Sample.parse Sample.fs Sample.path = Ok Sample.parsed) as Hparse
    by (vm_compute; reflexivity).
  split; [exact Hparse |].
  destruct (C6_bottom_row PyFloat.of_string PyFloat.zero PyFloat.one
              Sample.mem Sample.fs Sample.path Sample.parsed 1 Hparse)
    as (H0 & H1 & H2 & _); [simpl; lia |].
  split; [exact H0 | split; [exact H1 | exact H2]].
Defined.

Lemma C7_witness :
  Np.has_shape Sample.stack2 3 3 2 ∧ length (items Sample.ts2) = 2 ∧
  ∃ newTs,
    Sample.apply Sample.stack2 Sample.ts2 [] = (Ok (), [newTs]) ∧
    Sample.apply Sample.stack2 Sample.ts2 [newTs] = (Ok (), [newTs; newTs]) ∧
    Sample.apply Sample.stack2 newTs [] = (Ok (), [newTs]).
Proof.
  assert (Np.has_shape Sample.stack2 3 3 2) as Hshape by (repeat split).
  split; [exact Hshape |]. split; [reflexivity |].
  destruct (C7_idempotent PyFloat.zero PyFloat.one Sample.stack2 2 Sample.ts2
              Hshape eq_refl) as (newTs & Hfirst & Hsecond & Hre).
  exists newTs. split; [apply (Hfirst []) |].
  split; [apply (Hsecond []) | apply (Hre [])].
Defined.

Lemma C8_witness :
  6 < length (PyStr.split Sample.seven_line) ∧
  Forall (numeric PyFloat.of_string) (take 6 (PyStr.split Sample.seven_line)) ∧
  ∃ vs, line_values PyFloat.of_string Sample.seven_line = Ok vs ∧
        frame_matrix PyFloat.zero PyFloat.one vs = Sample.first_matrix.
Proof.
  assert (6 < length (PyStr.split Sample.seven_line)) as Hlen
    by (vm_compute; lia).
  assert (Forall (numeric PyFloat.of_string)
                 (take 6 (PyStr.split Sample.seven_line))) as Hnum
    by (apply (bool_decide_unpack _); vm_compute; exact I).
  split; [exact Hlen |]. split; [exact Hnum |].
  destruct (proj1 (C8_extra_tokens_ignored PyFloat.of_string PyFloat.zero
                     PyFloat.one) Sample.seven_line Hlen Hnum)
    as (vs & Htake & Hline & _).
  exists vs. split; [exact Hline |].
  assert (Ok vs = Ok (PyFloat.dyadic 1 0, PyFloat.zero, PyFloat.zero,
                      PyFloat.dyadic 1 0, PyFloat.dyadic 5 (-1),
                      PyFloat.dyadic (-3) (-1))) as Heq
    by (rewrite <- Hline; vm_compute; reflexivity).
  injection Heq as ->. vm_compute. reflexivity.
Defined.

Lemma C9_witness :
  Sample.dir !! "extra/blank.prexg" = Some Sample.blank ∧
  PyStr.readlines Sample.blank
  = [Sample.line1 +:+ Sample.nl] ++ Sample.nl :: [Sample.line2 +:+ Sample.nl] ∧
  PyStr.all_space Sample.nl = true ∧
  Sample.parse Sample.dir "extra/blank.prexg" = Raise IndexError.
Proof.
  assert (Sample.dir !! "extra/blank.prexg" = Some Sample.blank) as Hfs
    by (vm_compute; reflexivity).
  assert (PyStr.readlines Sample.blank
          = [Sample.line1 +:+ Sample.nl] ++ Sample.nl
            :: [Sample.line2 +:+ Sample.nl]) as Hlines
    by (vm_compute; reflexivity).
  split; [exact Hfs |]. split; [exact Hlines |]. split; [reflexivity |].
  destruct (C9_blank_line_fails PyFloat.of_string PyFloat.zero PyFloat.one
              Sample.mem Sample.dir _ _ _ _ _ Hfs Hlines eq_refl)
    as (_ & _ & _ & Hraise).
  apply Hraise. apply (bool_decide_unpack _). vm_compute. exact I.
Defined.

Lemma C10_witness :
  Sample.fs !! Sample.path = Some Sample.prexg ∧
  ({[ "copy.prexg" := Sample.prexg ]} : gmap string string) !! "copy.prexg"
  = Some Sample.prexg ∧
  formatTransformationMatrix PyFloat.of_string PyFloat.zero PyFloat.one
    Sample.mem Sample.fs Sample.path
  = formatTransformationMatrix PyFloat.of_string PyFloat.zero PyFloat.one
      (λ _, PyFloat.one) {[ "copy.prexg" := Sample.prexg ]} "copy.prexg".
Proof.
  assert (Sample.fs !! Sample.path = Some Sample.prexg) as H1
    by (vm_compute; reflexivity).
  assert (({[ "copy.prexg" := Sample.prexg ]} : gmap string string)
            !! "copy.prexg" = Some Sample.prexg) as H2
    by (vm_compute; reflexivity).
  split; [exact H1 |]. split; [exact H2 |].
  exact (C10_deterministic PyFloat.of_string PyFloat.zero PyFloat.one
           Sample.mem (λ _, PyFloat.one) _ _ _ _ _ H1 H2).
Defined.

(** * Further properties of the output step *)
Section OutputStepFacts.
Context {float : Type}.
Variable py_float : string → option float.
Variables zero one : float.
Variable mem : nat → float.
Variable fs : gmap string string.
Variable _getExtraPath : string → string.
Implicit Types A : Np.ndarray float.
Implicit Types ts newTs : TiltSeries float.
Implicit Types out new : list (TiltSeries float).
Implicit Types input : list (TiltSeries float).
Implicit Types tiltImages : list (TiltImage float).

Abbreviation step := (computeXcorrStep py_float zero one mem fs _getExtraPath).
Abbreviation parse_of ts :=
  (formatTransformationMatrix py_float zero one mem fs
     (prexg_path _getExtraPath (series_tsId ts))).

Lemma slice_last_Raise A j e :
  Np.slice_last A j = Raise e → e = IndexError.
Proof.
  unfold Np.slice_last. destruct (j <? Np.dim2 A); [| congruence].
  destruct (mapM _ _); congruence.
Qed.

Lemma attach_status_Raise_IndexError A index tiltImages e :
  attach_status A index tiltImages = Raise e → e = IndexError.
Proof.
  revert index. induction tiltImages as [|ti rest IH]; intros index; simpl;
    [done |].
  destruct (Np.slice_last A index) as [m|e'] eqn:E; [apply IH |].
  intros [= <-]. by apply slice_last_Raise in E.
Qed.

(** When every transform could be read, every frame was built. *)
Lemma attach_complete A index tiltImages :
  attach_status A index tiltImages = Ok () →
  length (attach A index tiltImages) = length tiltImages ∧
  ∀ k tiltImage, tiltImages !! k = Some tiltImage →
    ∃ m, Np.slice_last A (index + k) = Ok m ∧
         attach A index tiltImages !! k = Some (frame_of tiltImage m).
Proof.
  revert index. induction tiltImages as [|ti rest IH]; intros index; simpl;
    [done |].
  destruct (Np.slice_last A index) as [m|e] eqn:E; [| done].
  intros [Hlen Hk]%IH. split; [simpl; by f_equal |].
  intros [|k] tiltImage Hlook; simpl in *.
  - injection Hlook as ->. exists m. by rewrite Nat.add_0_r.
  - replace (index + S k) with (index + 1 + k) by lia. by apply Hk.
Qed.

(** The frames built before a failure are fewer than the source frames. *)
Lemma attach_length_le A index tiltImages :
  length (attach A index tiltImages) ≤ length tiltImages.
Proof.
  revert index. induction tiltImages as [|ti rest IH]; intros index; simpl;
    [done |].
  destruct (Np.slice_last A index); simpl; [| lia].
  specialize (IH (index + 1)). lia.
Qed.

Lemma step_app_Ok input1 input2 out out1 :
  step input1 out = (Ok (), out1) →
  step (input1 ++ input2) out = step input2 out1.
Proof.
  revert out. induction input1 as [|ts rest IH]; intros out; simpl.
  { by intros [= ->]. }
  destruct (parse_of ts) as [A|e]; [| done].
  destruct (applyStack zero one A ts out) as [[[]|e] out']; [| done].
  apply IH.
Qed.

Lemma applyStack_built A ts out out' :
  parse_of ts = Ok A →
  applyStack zero one A ts out = (Ok (), out') →
  ∃ newTs, out' = out ++ [newTs] ∧
           built_from py_float zero one mem fs _getExtraPath ts newTs.
Proof.
  intros HA. rewrite applyStack_eq. intros [= Hst <-].
  apply attach_complete in Hst as [Hlen Hk].
  eexists. split; [done |]. repeat split; [done |]. exists A. by split.
Qed.


(** X2: when the output loop returns normally, the output set has grown by
    exactly one series per input series, in input order; each new series
    has the id and sampling rate of its source, as many frames, and frame
    i is source frame i with the transform read at index i of the stack
    parsed from the .prexg file of that series. *)
Theorem X2_step_success input out out' :
  computeXcorrStep py_float zero one mem fs _getExtraPath input out
  = (Ok (), out') →
  ∃ new, out' = out ++ new ∧
         Forall2 (built_from py_float zero one mem fs _getExtraPath) input new.
Proof.
  revert out. induction input as [|ts rest IH]; intros out; simpl.
  { intros [= <-]. exists []. by rewrite app_nil_r. }
  destruct (parse_of ts) as [A|e] eqn:HA; [| done].
  destruct (applyStack zero one A ts out) as [[[]|e] out1] eqn:Happ; [| done].
  destruct (applyStack_built A ts out out1 HA Happ) as (newTs & -> & Hbuilt).
  intros (new & -> & Hnew)%IH.
  exists (newTs :: new). split; [by rewrite <- app_assoc | by constructor].
Qed.

(** X3: whatever the outcome, the output loop only appends: the series the
    output set held before stay in place and unchanged, and at most one
    series per input series is added. *)
Theorem X3_step_appends_only input out :
  ∃ new,
    (computeXcorrStep py_float zero one mem fs _getExtraPath input out).2
    = out ++ new ∧
    length new ≤ length input.
Proof.
  revert out. induction input as [|ts rest IH]; intros out; simpl.
  { exists []. by rewrite app_nil_r. }
  destruct (parse_of ts) as [A|e].
  - rewrite applyStack_eq.
    destruct (attach_status A 0 (items ts)) as [[]|e]; simpl.
    + destruct (IH (out ++ [{| series_tsId := series_tsId ts;
                               series_samplingRate := series_samplingRate ts;
                               items := attach A 0 (items ts) |}]))
        as (new & -> & Hlen).
      eexists (_ :: new). split; [by rewrite <- app_assoc | simpl; lia].
    + eexists [_]. split; [done | simpl; lia].
  - exists []. split; [by rewrite app_nil_r | simpl; lia].
Qed.

(** X4: when the transform file of a series cannot be parsed (it is
    missing, or one of its lines is short or holds a token that is not a
    number), the loop stops with the parser's exception before anything is
    added for that series: the output set holds what the series before it
    produced, and the series after it are not processed. *)
Theorem X4_parse_failure_stops input1 ts input2 out out1 e :
  computeXcorrStep py_float zero one mem fs _getExtraPath input1 out
  = (Ok (), out1) →
  formatTransformationMatrix py_float zero one mem fs
    (prexg_path _getExtraPath (series_tsId ts)) = Raise e →
  computeXcorrStep py_float zero one mem fs _getExtraPath
    (input1 ++ ts :: input2) out
  = (Raise e, out1).
Proof.
  intros H1 He. rewrite (step_app_Ok _ _ _ _ H1). simpl. by rewrite He.
Qed.

(** X5: a series whose transform file is well formed and has at least as
    many lines as the series has frames is processed normally: one series
    is appended whose frame i is source frame i with the matrix built from
    line i of the file as its transform, and the loop goes on with the
    remaining series. *)
Theorem X5_series_end_to_end ts input out content :
  fs !! prexg_path _getExtraPath (series_tsId ts) = Some content →
  Forall (good_line py_float) (PyStr.readlines content) →
  length (items ts) ≤ length (PyStr.readlines content) →
  ∃ newTs,
    computeXcorrStep py_float zero one mem fs _getExtraPath (ts :: input) out
    = computeXcorrStep py_float zero one mem fs _getExtraPath input
        (out ++ [newTs]) ∧
    series_tsId newTs = series_tsId ts ∧
    series_samplingRate newTs = series_samplingRate ts ∧
    length (items newTs) = length (items ts) ∧
    ∀ i line tiltImage,
      PyStr.readlines content !! i = Some line →
      items ts !! i = Some tiltImage →
      ∃ vs, line_values py_float line = Ok vs ∧
            items newTs !! i
            = Some (frame_of tiltImage (frame_matrix zero one vs)).
Proof.
  intros Hfs [vss Hvss]%lines_values_Ok Hlen.
  destruct (parse_ok py_float zero one mem fs _ content vss Hfs Hvss)
    as (A & HA & Hshape & Hframes).
  exists {| series_tsId := series_tsId ts;
            series_samplingRate := series_samplingRate ts;
            items := attach A 0 (items ts) |}.
  assert (attach_status A 0 (items ts) = Ok ()) as Hst
    by (by apply (attach_status_Ok A (length (PyStr.readlines content)))).
  destruct (attach_complete A 0 (items ts) Hst) as [Hl Hk].
  repeat split; [| done |].
  - simpl. by rewrite HA, applyStack_eq, Hst.
  - intros i line tiltImage Hline Hti. simpl.
    destruct (lines_values_lookup_line _ _ _ _ _ Hvss Hline) as (vs & Hvs & Hl').
    destruct (Hframes i vs Hvs) as [Hslice _].
    destruct (Hk i tiltImage Hti) as (m & Hm & Hnew). simpl in Hm.
    exists vs. split; [done |]. congruence.
Qed.

(** X6: a series with more frames than its well-formed transform file has
    lines aborts the loop with [IndexError]; the series appended for it
    stays in the output set with only as many frames as the file has
    lines, and the series after it are not processed. *)
Theorem X6_short_file_aborts ts input out content :
  fs !! prexg_path _getExtraPath (series_tsId ts) = Some content →
  Forall (good_line py_float) (PyStr.readlines content) →
  length (PyStr.readlines content) < length (items ts) →
  ∃ newTs,
    computeXcorrStep py_float zero one mem fs _getExtraPath (ts :: input) out
    = (Raise IndexError, out ++ [newTs]) ∧
    series_tsId newTs = series_tsId ts ∧
    length (items newTs) = length (PyStr.readlines content).
Proof.
  intros Hfs [vss Hvss]%lines_values_Ok Hlen.
  destruct (parse_ok py_float zero one mem fs _ content vss Hfs Hvss)
    as (A & HA & Hshape & _).
  exists {| series_tsId := series_tsId ts;
            series_samplingRate := series_samplingRate ts;
            items := attach A 0 (items ts) |}.
  repeat split.
  - simpl. rewrite HA, applyStack_eq.
    by rewrite (attach_status_Raise A (length (PyStr.readlines content)))
      by (done || lia).
  - simpl. rewrite (attach_length A (length (PyStr.readlines content)))
      by (done || lia). lia.
Qed.

End OutputStepFacts.

(** * Paths and job arguments *)
Section PathFacts.

Lemma string_app_cons (x : ascii) (a b : string) :
  String x a +:+ b = String x (a +:+ b).
Proof. done. Qed.

Lemma string_app_assoc (a b c : string) : (a +:+ b) +:+ c = a +:+ b +:+ c.
Proof.
  induction a as [|x a IH]; [done |]. by rewrite !string_app_cons, IH.
Qed.

Lemma string_app_nil_r (a : string) : a +:+ "" = a.
Proof.
  induction a as [|x a IH]; [done |]. by rewrite string_app_cons, IH.
Qed.

Lemma startswith_sep_app (a b : string) :
  a ≠ "" → PosixPath.startswith_sep (a +:+ b) = PosixPath.startswith_sep a.
Proof. by destruct a. Qed.

Lemma endswith_sep_app (a b : string) :
  b ≠ "" → PosixPath.endswith_sep (a +:+ b) = PosixPath.endswith_sep b.
Proof.
  intros Hb. induction a as [|x a IH]; [done |].
  rewrite string_app_cons. cbn [PosixPath.endswith_sep]. rewrite IH.
  destruct (a +:+ b) eqn:E; [| done].
  destruct a, b; done.
Qed.

Lemma string_app_not_nil_r (a b : string) : b ≠ "" → a +:+ b ≠ "".
Proof. destruct a, b; done. Qed.

(** Joining a relative name that neither is empty nor ends in the
    separator appends it after exactly one separator or none. *)
Lemma join2_relative (path b : string) :
  PosixPath.startswith_sep b = false →
  ∃ prefix, PosixPath.join2 path b = prefix +:+ b ∧
            ∀ c, PosixPath.startswith_sep c = false →
                 PosixPath.join2 path c = prefix +:+ c.
Proof.
  intros Hb. unfold PosixPath.join2.
  destruct (bool_decide (path = "") || PosixPath.endswith_sep path) eqn:E.
  - exists path. rewrite Hb. split; [done |]. by intros c ->.
  - exists (path +:+ "/"). rewrite Hb.
    split; [symmetry; apply string_app_assoc |].
    intros c ->. symmetry. apply string_app_assoc.
Qed.

(** Joining [tsId] and then [tsId.ext] is joining [tsId/tsId.ext]. *)
Lemma join_twice (dir tsId ext : string) :
  tsId ≠ "" →
  PosixPath.startswith_sep tsId = false →
  PosixPath.endswith_sep tsId = false →
  PosixPath.join2 (PosixPath.join2 dir tsId) (tsId +:+ ext)
  = PosixPath.join2 dir (tsId +:+ "/" +:+ tsId +:+ ext).
Proof.
  intros Hne Hstart Hend.
  destruct (join2_relative dir tsId Hstart) as (prefix & -> & Hall).
  rewrite Hall by (by rewrite startswith_sep_app).
  unfold PosixPath.join2. rewrite startswith_sep_app, Hstart by done.
  rewrite endswith_sep_app, Hend by done.
  rewrite bool_decide_eq_false_2 by (by apply string_app_not_nil_r).
  simpl. by rewrite !string_app_assoc.
Qed.

End PathFacts.

(** ** The [%] operator *)
Section FormatFacts.
Context {float : Type}.
Variable str_float : float → string.
Variable format_f : float → string.
Variable int_float : float → PyFormat.outcome Z.
Implicit Types d : gmap string (@PyFormat.value float).
Implicit Types m : PyFormat.mode (float := float).

Abbreviation scan := (PyFormat.scan str_float format_f int_float).

(** Scanning a concatenation is scanning its parts in turn. *)
Lemma scan_app d m (s1 s2 : string) :
  scan d m (s1 +:+ s2)
  = '(o1, m1) ← scan d m s1;
    '(o2, m2) ← scan d m1 s2;
    PyFormat.Done (o1 +:+ o2, m2).
Proof.
  revert m. induction s1 as [|c s1 IH]; intros m.
  { change ("" +:+ s2) with s2. cbn [PyFormat.scan mbind PyFormat.outcome_bind].
    by destruct (scan d m s2) as [[o2 m2]|e]. }
  rewrite string_app_cons. cbn [PyFormat.scan].
  destruct m as [| |acc depth|v].
  - destruct (Ascii.eqb c "%"); [apply IH |]. rewrite IH.
    destruct (scan d PyFormat.Text s1) as [[o1 m1]|e]; [| done].
    cbn [mbind PyFormat.outcome_bind].
    by destruct (scan d m1 s2) as [[o2 m2]|e].
  - destruct (Ascii.eqb c "%").
    + rewrite IH.
      destruct (scan d PyFormat.Text s1) as [[o1 m1]|e]; [| done].
      cbn [mbind PyFormat.outcome_bind].
      by destruct (scan d m1 s2) as [[o2 m2]|e].
    + destruct (Ascii.eqb c "("); [apply IH | done].
  - destruct (Ascii.eqb c ")").
    + destruct depth as [|[|depth]]; try apply IH;
        (destruct (d !! String.rev acc); [apply IH | done]).
    + destruct (Ascii.eqb c "("); apply IH.
  - destruct (Ascii.eqb c "%").
    + rewrite IH.
      destruct (scan d PyFormat.Text s1) as [[o1 m1]|e]; [| done].
      cbn [mbind PyFormat.outcome_bind].
      by destruct (scan d m1 s2) as [[o2 m2]|e].
    + destruct (PyFormat.convert str_float format_f int_float c v) as [s|e];
        [| done].
      cbn [mbind PyFormat.outcome_bind]. rewrite IH.
      destruct (scan d PyFormat.Text s1) as [[o1 m1]|e]; [| done].
      cbn [mbind PyFormat.outcome_bind].
      destruct (scan d m1 s2) as [[o2 m2]|e]; [| done].
      cbn [mbind PyFormat.outcome_bind]. by rewrite string_app_assoc.
Qed.

(** Text without a percent sign is copied. *)
Lemma scan_plain d (s : string) :
  PyFormat.no_percent s = true →
  scan d PyFormat.Text s = PyFormat.Done (s, PyFormat.Text).
Proof.
  induction s as [|c s IH]; [done |]. cbn [PyFormat.no_percent PyFormat.scan].
  intros [Hc Hs]%andb_true_iff. apply negb_true_iff in Hc. rewrite Hc.
  by rewrite (IH Hs).
Qed.

Lemma no_percent_app (a b : string) :
  PyFormat.no_percent (a +:+ b)
  = PyFormat.no_percent a && PyFormat.no_percent b.
Proof.
  induction a as [|c a IH]; [done |].
  rewrite string_app_cons. cbn [PyFormat.no_percent]. rewrite IH.
  by rewrite andb_assoc.
Qed.

Lemma no_percent_join (l : list string) :
  Forall (λ s, PyFormat.no_percent s = true) l →
  PyFormat.no_percent (str_join "," l) = true.
Proof.
  induction 1 as [|s l Hs Hl IH]; [done |].
  destruct l as [|s' l]; [done |].
  change (str_join "," (s :: s' :: l))
    with (s +:+ "," +:+ str_join "," (s' :: l)).
  rewrite !no_percent_app, Hs. by rewrite IH.
Qed.

Lemma no_percent_pretty_N_go (x : N) (s : string) :
  PyFormat.no_percent s = true →
  PyFormat.no_percent (pretty_N_go x s) = true.
Proof.
  revert s. induction (N.lt_wf_0 x) as [x _ IH]; intros s Hs.
  destruct (decide (x = 0)%N) as [->|Hx]; [done |].
  rewrite pretty_N_go_step by lia. apply IH; [apply N.div_lt; lia |].
  cbn [PyFormat.no_percent]. rewrite Hs.
  unfold pretty_N_char. by repeat case_match.
Qed.

Lemma no_percent_pretty_N (x : N) : PyFormat.no_percent (pretty x) = true.
Proof.
  unfold pretty, pretty_N. case_decide; [done |].
  by apply no_percent_pretty_N_go.
Qed.

(** The decimal text of an integer has no percent sign. *)
Lemma no_percent_pretty_Z (x : Z) : PyFormat.no_percent (pretty x) = true.
Proof.
  destruct x as [|p|p]; [done | apply (no_percent_pretty_N (Npos p)) |].
  change (pretty (Zneg p)) with ("-" +:+ pretty (Npos p)).
  rewrite no_percent_app. by rewrite no_percent_pretty_N.
Qed.

End FormatFacts.

Section XcorrJobFacts.
Context {float : Type}.
Variable str_float : float → string.
Variable format_f : float → string.
Variable int_float : float → PyFormat.outcome Z.
Variable float_literal : string → float.
Variable _getExtraPath : string → string.
Variable _getTmpPath : string → string.
Variable rotationAngle : float.
Implicit Types ts : TiltSeries float.
Implicit Types input : list (TiltSeries float).
Implicit Types jobs : list (string * string).

Abbreviation fmt := (PyFormat.format str_float format_f int_float).

Abbreviation jobs_loop :=
  (computeXcorrStep_jobs str_float format_f int_float float_literal
     _getExtraPath _getTmpPath rotationAngle).
Abbreviation series_jobs :=
  (jobs_of format_f float_literal _getExtraPath _getTmpPath rotationAngle).

Lemma format_argsXcorr tsId :
  fmt argsXcorr
      (paramsXcorr float_literal _getExtraPath _getTmpPath rotationAngle tsId)
  = PyFormat.Done
      ("-input " +:+ PosixPath.join (_getTmpPath tsId) [tsId +:+ ".st"] +:+
       " -output " +:+
       PosixPath.join (_getExtraPath tsId) [tsId +:+ ".prexf"] +:+
       " -tiltfile " +:+
       PosixPath.join (_getTmpPath tsId) [tsId +:+ ".rawtlt"] +:+
       " -RotationAngle " +:+ format_f rotationAngle +:+
       " -FilterSigma1 " +:+ format_f (float_literal "0.03") +:+
       " -FilterSigma2 " +:+ format_f (float_literal "0.05") +:+
       " -FilterRadius2 " +:+ format_f (float_literal "0.25")).
Proof.
  unfold paramsXcorr.
  generalize (PosixPath.join (_getTmpPath tsId) [tsId +:+ ".st"]),
    (PosixPath.join (_getExtraPath tsId) [tsId +:+ ".prexf"]),
    (PosixPath.join (_getTmpPath tsId) [tsId +:+ ".rawtlt"]),
    (float_literal "0.03"), (float_literal "0.05"), (float_literal "0.25").
  intros p1 p2 p3 f1 f2 f3.
  rewrite <- (string_app_nil_r (format_f f3)). vm_compute. reflexivity.
Qed.

Lemma format_argsXftoxg tsId :
  fmt argsXftoxg (paramsXftoxg _getExtraPath tsId)
  = PyFormat.Done
      ("-input " +:+
       PosixPath.join (_getExtraPath tsId) [tsId +:+ ".prexf"] +:+
       " -goutput " +:+
       PosixPath.join (_getExtraPath tsId) [tsId +:+ ".prexg"]).
Proof.
  unfold paramsXftoxg.
  generalize (PosixPath.join (_getExtraPath tsId) [tsId +:+ ".prexf"]),
    (PosixPath.join (_getExtraPath tsId) [tsId +:+ ".prexg"]).
  intros p1 p2. symmetry.
  rewrite <- (string_app_nil_r p2) at 1. vm_compute. reflexivity.
Qed.

(** X7: the first loop of [computeXcorrStep] never fails to build its
    command lines: it runs, for each series in input order, [tiltxcorr]
    and then [xftoxg], the file [tiltxcorr] writes ([-output]) being the
    file [xftoxg] reads ([-input]); the jobs already run stay in place. *)
Theorem X7_xcorr_jobs input jobs :
  computeXcorrStep_jobs str_float format_f int_float float_literal
    _getExtraPath _getTmpPath rotationAngle input jobs
  = (PyFormat.Done (),
     jobs ++
     (input ≫=
      jobs_of format_f float_literal _getExtraPath _getTmpPath
        rotationAngle)).
Proof.
  revert jobs. induction input as [|ts rest IH]; intros jobs.
  { simpl. by rewrite app_nil_r. }
  cbn [computeXcorrStep_jobs].
  rewrite format_argsXcorr, format_argsXftoxg, IH.
  by rewrite <- !app_assoc.
Qed.

(** X8: when [_getExtraPath(p)] is [os.path.join(workingDir, "extra", p)]
    and the series id is not empty and neither starts nor ends with a
    slash, the file [xftoxg] is told to write ([-goutput]) is the file
    [formatTransformationMatrix] is given to read. *)
Theorem X8_xftoxg_writes_parsed_file workingDir tsId :
  (∀ p, _getExtraPath p = PosixPath.join workingDir ["extra"; p]) →
  tsId ≠ "" →
  PosixPath.startswith_sep tsId = false →
  PosixPath.endswith_sep tsId = false →
  fmt argsXftoxg (paramsXftoxg _getExtraPath tsId)
  = PyFormat.Done
      ("-input " +:+
       PosixPath.join (_getExtraPath tsId) [tsId +:+ ".prexf"] +:+
       " -goutput " +:+ prexg_path _getExtraPath tsId).
Proof.
  intros Hextra Hne Hstart Hend. rewrite format_argsXftoxg.
  do 3 f_equal. unfold prexg_path. rewrite !Hextra.
  cbn [PosixPath.join foldl]. by rewrite join_twice.
Qed.

End XcorrJobFacts.

(** * The reconstruction step *)
Section ReconstructionFacts.
Context {float : Type}.
Variable str_float : float → string.
Variable format_f : float → string.
Variable int_float : float → PyFormat.outcome Z.
Variable _getExtraPath : string → string.
Variable _getTmpPath : string → string.
Implicit Types self : TomoReconstruction.Params (float := float).
Implicit Types ts : TomoReconstruction.Series.
Implicit Types jobs : list (string * string).

Abbreviation pformat := (PyFormat.format str_float format_f int_float).
Abbreviation pscan := (PyFormat.scan str_float format_f int_float).
Abbreviation recon :=
  (TomoReconstruction.computeReconstructionStep str_float format_f int_float
     _getExtraPath _getTmpPath).

Lemma format_argsTrimvol ts :
  pformat TomoReconstruction.argsTrimvol
    (TomoReconstruction.paramsTrimVol _getExtraPath _getTmpPath ts)
  = PyFormat.Done
      (TomoReconstruction.trimvol_command _getExtraPath _getTmpPath ts).
Proof.
  unfold TomoReconstruction.paramsTrimVol, TomoReconstruction.trimvol_command.
  generalize
    (PosixPath.join (_getTmpPath (TomoReconstruction.getTsId ts))
       [TomoReconstruction.parseFileName ts (Some ".rec")]),
    (PosixPath.join (_getExtraPath (TomoReconstruction.getTsId ts))
       [TomoReconstruction.parseFileName ts (Some ".mrc")]).
  intros p1 p2. vm_compute. reflexivity.
Qed.


Lemma scan_app_Text d (a b oa ob : string) :
  pscan d PyFormat.Text a = PyFormat.Done (oa, PyFormat.Text) →
  pscan d PyFormat.Text b = PyFormat.Done (ob, PyFormat.Text) →
  pscan d PyFormat.Text (a +:+ b) = PyFormat.Done (oa +:+ ob, PyFormat.Text).
Proof. intros Ha Hb. by rewrite scan_app, Ha; cbn; rewrite Hb. Qed.

Lemma format_of_scan d (a oa : string) :
  pscan d PyFormat.Text a = PyFormat.Done (oa, PyFormat.Text) →
  pformat a d = PyFormat.Done oa.
Proof. unfold PyFormat.format. by intros ->. Qed.

Abbreviation tilt_params :=
  (TomoReconstruction.paramsTilt_base str_float _getTmpPath).

Lemma scan_argsTilt_base self ts thickness (sirt : option Z) :
  int_float (TomoReconstruction.tomoThickness self) = PyFormat.Done thickness →
  pscan (match sirt with
         | Some n =>
             <["FakeSIRTInteractions" := PyFormat.VInt n]> (tilt_params self ts)
         | None => tilt_params self ts
         end)
        PyFormat.Text TomoReconstruction.argsTilt_base
  = PyFormat.Done
      (TomoReconstruction.tilt_base_text str_float _getTmpPath self ts
         thickness,
       PyFormat.Text).
Proof.
  intros Hint.
  unfold TomoReconstruction.paramsTilt_base, TomoReconstruction.tilt_base_text.
  destruct self as [thick shiftX shiftZ angle axis n r1 r2 gpu gpus].
  destruct ts as [tsId parseFileName views].
  cbn [TomoReconstruction.tomoThickness TomoReconstruction.tomoShiftX
       TomoReconstruction.tomoShiftZ TomoReconstruction.angleOffset
       TomoReconstruction.tiltAxisOffset
       TomoReconstruction.radialFirstParameter
       TomoReconstruction.radialSecondParameter
       TomoReconstruction.getTsId TomoReconstruction.parseFileName] in *.
  generalize (PosixPath.join (_getTmpPath tsId) [parseFileName None]),
    (PosixPath.join (_getTmpPath tsId) [parseFileName (Some ".rec")]),
    (PosixPath.join (_getTmpPath tsId) [parseFileName (Some ".tlt")]),
    (str_float r1), (str_float r2), (str_float shiftX), (str_float shiftZ),
    (str_float angle), (str_float axis).
  intros p1 p2 p3 s1 s2 s3 s4 s5 s6.
  destruct sirt as [k|]; vm_compute; rewrite Hint; reflexivity.
Qed.

Lemma scan_sirt_flag self ts n :
  pscan (<["FakeSIRTInteractions" := PyFormat.VInt n]> (tilt_params self ts))
        PyFormat.Text "-FakeSIRTiterations %(FakeSIRTInteractions)d "
  = PyFormat.Done ("-FakeSIRTiterations " +:+ pretty n +:+ " ", PyFormat.Text).
Proof.
  generalize (tilt_params self ts). intros d.
  cbn -[pretty insert lookup]. by rewrite lookup_insert_eq.
Qed.

Lemma scan_views_flag d (views : list string) :
  Forall (λ s, PyFormat.no_percent s = true) views →
  pscan d PyFormat.Text ("-EXCLUDELIST2 " +:+ str_join "," views +:+ " ")
  = PyFormat.Done ("-EXCLUDELIST2 " +:+ str_join "," views +:+ " ",
                   PyFormat.Text).
Proof.
  intros Hviews. apply scan_plain.
  rewrite !no_percent_app. by rewrite no_percent_join.
Qed.

Lemma scan_gpu_flag d (gpu : Z) :
  pscan d PyFormat.Text
        (("-UseGPU " +:+ pretty gpu +:+ " ") +:+ "-ActionIfGPUFails 2,2 ")
  = PyFormat.Done ("-UseGPU " +:+ pretty gpu +:+ " -ActionIfGPUFails 2,2 ",
                   PyFormat.Text).
Proof.
  rewrite scan_plain.
  - by rewrite !string_app_assoc.
  - rewrite !no_percent_app. by rewrite no_percent_pretty_Z.
Qed.

(** X10: when the thickness is a finite number, no excluded-view label
    holds a percent sign and a GPU id is listed if the GPU is used, the
    step runs [tilt] with every value in its place: the three files of the
    tmp folder, the thickness cut to an integer, the radial, shift and
    offset pairs, then [-FakeSIRTiterations] exactly when the number of
    iterations is not 0, [-EXCLUDELIST2] exactly when views are excluded
    and [-UseGPU] with the first listed id exactly when the GPU is used;
    then it runs [trimvol]. *)
Theorem X10_tilt_command self ts jobs thickness :
  int_float (TomoReconstruction.tomoThickness self) = PyFormat.Done thickness →
  Forall (λ s, PyFormat.no_percent s = true)
         (TomoReconstruction.getExcludedViewsIndex ts) →
  (TomoReconstruction.usesGpu self = true →
   is_Some (TomoReconstruction.getGpuList self !! 0)) →
  recon self ts jobs
  = (PyFormat.Done (),
     jobs ++ [("tilt",
               TomoReconstruction.tilt_command str_float _getTmpPath self ts
                 thickness
                 (default 0%Z (TomoReconstruction.getGpuList self !! 0)));
              ("trimvol",
               TomoReconstruction.trimvol_command _getExtraPath _getTmpPath
                 ts)]).
Proof.
  intros Hint Hviews Hgpu.
  pose proof (scan_argsTilt_base self ts thickness None Hint) as Hb0.
  pose proof (λ n, scan_argsTilt_base self ts thickness (Some n) Hint) as Hb1.
  cbn match in Hb1.
  assert (∀ args params tilt,
            TomoReconstruction.tilt_format str_float _getTmpPath self ts
            = PyFormat.Done (args, params) →
            pscan params PyFormat.Text args
            = PyFormat.Done (tilt, PyFormat.Text) →
            recon self ts jobs
            = (PyFormat.Done (),
               jobs ++ [("tilt", tilt);
                        ("trimvol",
                         TomoReconstruction.trimvol_command _getExtraPath
                           _getTmpPath ts)])) as Hrun.
  { intros args params tilt Hf Hs.
    unfold TomoReconstruction.computeReconstructionStep.
    rewrite Hf, (format_of_scan _ _ _ Hs), format_argsTrimvol.
    by rewrite <- app_assoc. }
  unfold TomoReconstruction.tilt_command.
  unfold TomoReconstruction.tilt_format in Hrun.
  assert (bool_decide (length (TomoReconstruction.getExcludedViewsIndex ts) ≠ 0)
          = bool_decide (TomoReconstruction.getExcludedViewsIndex ts ≠ []))
    as Hlen.
  { apply bool_decide_ext.
    by destruct (TomoReconstruction.getExcludedViewsIndex ts). }
  rewrite Hlen in Hrun. clear Hlen.
  destruct (bool_decide (TomoReconstruction.getExcludedViewsIndex ts ≠ []));
    destruct (bool_decide (TomoReconstruction.fakeInteractionsSIRT self ≠ 0%Z));
    destruct (TomoReconstruction.usesGpu self).
  all: try (destruct Hgpu as [gpu Hg]; [done |]; rewrite Hg in Hrun |- *;
            cbn [default]).
  all: cbv beta iota zeta in Hrun |- *.
  all: eapply Hrun; [reflexivity |].
  - apply scan_app_Text; [| apply scan_gpu_flag].
    apply scan_app_Text; [| by apply scan_views_flag].
    apply scan_app_Text; [apply Hb1 | apply scan_sirt_flag].
  - apply scan_app_Text; [| by apply scan_views_flag].
    apply scan_app_Text; [apply Hb1 | apply scan_sirt_flag].
  - apply scan_app_Text; [| apply scan_gpu_flag].
    apply scan_app_Text; [apply Hb0 | by apply scan_views_flag].
  - apply scan_app_Text; [apply Hb0 | by apply scan_views_flag].
  - apply scan_app_Text; [| apply scan_gpu_flag].
    apply scan_app_Text; [apply Hb1 | apply scan_sirt_flag].
  - apply scan_app_Text; [apply Hb1 | apply scan_sirt_flag].
  - apply scan_app_Text; [apply Hb0 | apply scan_gpu_flag].
  - apply Hb0.
Qed.

End ReconstructionFacts.

(** * The interpolated stack step *)
Section InterpolatedFacts.
Context {float : Type}.
Variable str_float : float → string.
Variable format_f : float → string.
Variable int_float : float → PyFormat.outcome Z.
Variable float_literal : string → float.
Variable float_gt_int : float → Z → bool.
Variable float_mul_int : float → Z → float.
Variable _getExtraPath : string → string.
Variable _getTmpPath : string → string.
Variable binning : float.
Implicit Types ts series : TiltSeries float.
Implicit Types tiltImage : TiltImage float.
Implicit Types tiltImages : list (TiltImage float).
Implicit Types out pre post : list (TiltSeries float).
Implicit Types jobs : list (string * string).

Abbreviation frames_loop :=
  (for_interpolated int_float float_gt_int float_mul_int _getExtraPath binning).
Abbreviation interp_step :=
  (computeInterpolatedStackStep str_float format_f int_float float_literal
     float_gt_int float_mul_int _getExtraPath _getTmpPath binning).
Abbreviation new_frames :=
  (interpolated_frames float_gt_int float_mul_int _getExtraPath binning).
Abbreviation scaled :=
  (scaled_rate int_float float_mul_int binning).

Lemma format_argsAlignment tsId bin :
  PyFormat.format str_float format_f int_float argsAlignment
    (paramsAlginment float_literal _getExtraPath _getTmpPath tsId bin)
  = PyFormat.Done
      (newstack_command str_float float_literal _getExtraPath _getTmpPath
         tsId bin).
Proof.
  unfold paramsAlginment, newstack_command.
  generalize (PosixPath.join (_getTmpPath tsId) [tsId +:+ ".st"]),
    (PosixPath.join (_getExtraPath tsId) [tsId +:+ "_preali.st"]),
    (PosixPath.join (_getExtraPath tsId) [tsId +:+ ".prexg"]),
    (float_literal "1.0").
  intros p1 p2 p3 f1.
  rewrite <- (string_app_nil_r (str_float f1)). vm_compute. reflexivity.
Qed.

Abbreviation rates_set := (rates_are_set float_gt_int binning).

Lemma for_interpolated_eq tsId bin index tiltImages pre series post :
  int_float binning = PyFormat.Done bin →
  rates_set tiltImages →
  frames_loop tsId (length pre) index tiltImages (pre ++ series :: post)
  = (PyFormat.Done (),
     pre ++ extend (new_frames tsId bin index tiltImages) series :: post).
Proof.
  intros Hbin. revert index series.
  induction tiltImages as [|ti rest IH]; intros index series Hrates.
  { cbn [for_interpolated interpolated_frames]. by rewrite extend_nil. }
  cbn [for_interpolated interpolated_frames].
  assert (rates_set rest) as Hrest.
  { intros Hgt. specialize (Hrates Hgt). by apply Forall_cons in Hrates as [_ ?]. }
  unfold interpolated_frame.
  destruct (float_gt_int binning 1) eqn:Hgt.
  - assert (is_Some (samplingRate ti)) as [r Hr].
    { specialize (Hrates Hgt). by apply Forall_cons in Hrates as [? _]. }
    unfold scaled_rate. rewrite Hbin, Hr. cbn [mbind PyFormat.outcome_bind fmap option_fmap option_map].
    rewrite alter_middle, IH by done. rewrite extend_append.
    by destruct ti.
  - rewrite alter_middle, IH by done. rewrite extend_append.
    by destruct ti.
Qed.

Lemma interpolated_frames_length tsId bin index tiltImages :
  length (new_frames tsId bin index tiltImages) = length tiltImages.
Proof.
  revert index. induction tiltImages as [|ti rest IH]; intros index; simpl;
    [done | by rewrite IH].
Qed.

Lemma interpolated_frames_lookup tsId bin index tiltImages k tiltImage :
  tiltImages !! k = Some tiltImage →
  new_frames tsId bin index tiltImages !! k
  = Some (interpolated_frame float_gt_int float_mul_int _getExtraPath binning
            tsId bin (index + k) tiltImage).
Proof.
  revert index k. induction tiltImages as [|ti rest IH]; intros index k Hk;
    [done |].
  destruct k as [|k]; simpl in Hk |- *.
  - injection Hk as ->. by rewrite Nat.add_0_r.
  - rewrite (IH (index + 1) k Hk). do 2 f_equal. lia.
Qed.


End InterpolatedFacts.

(** * Steps and reports *)
Section StepFacts.
Import TomoReconstruction.

Lemma insert_series_steps_eq objIds steps :
  insert_series_steps objIds steps = steps ++ (objIds ≫= series_steps).
Proof.
  revert steps. induction objIds as [|x rest IH]; intros steps; simpl.
  { by rewrite app_nil_r. }
  rewrite IH. unfold _insertFunctionStep. by rewrite <- !app_assoc.
Qed.

Lemma series_steps_lookup objIds k tsObjId :
  objIds !! k = Some tsObjId →
  (objIds ≫= series_steps) !! (3 * k) = Some (ConvertInputStep, [tsObjId]) ∧
  (objIds ≫= series_steps) !! (3 * k + 1)
  = Some (ComputeReconstructionStep, [tsObjId]) ∧
  (objIds ≫= series_steps) !! (3 * k + 2) = Some (CreateOutputStep, [tsObjId]).
Proof.
  revert k. induction objIds as [|x rest IH]; intros k Hk; [done |].
  destruct k as [|k]; simpl in Hk.
  - by injection Hk as ->.
  - destruct (IH k Hk) as (H0 & H1 & H2).
    replace (3 * S k) with (S (S (S (3 * k)))) by lia.
    by repeat split.
Qed.

Lemma series_steps_length objIds :
  length (objIds ≫= series_steps) = 3 * length objIds.
Proof.
  induction objIds as [|x rest IH]; [done |].
  rewrite bind_cons, length_app, IH. cbn [length series_steps]. lia.
Qed.

(** X12: [_insertAllSteps] of the reconstruction protocol appends, after
    the steps already there, three steps for each series in input order
    (convert, reconstruct, create output, all with the object id of the
    series, one right after the other) and then [closeOutputSetsStep]
    once, as the last step. *)
Theorem X12_insertAllSteps objIds steps :
  let all := _insertAllSteps objIds steps in
  length all = length steps + 3 * length objIds + 1 ∧
  take (length steps) all = steps ∧
  all !! (length steps + 3 * length objIds) = Some (CloseOutputSetsStep, []) ∧
  (∀ k tsObjId, objIds !! k = Some tsObjId →
     all !! (length steps + 3 * k) = Some (ConvertInputStep, [tsObjId]) ∧
     all !! (length steps + 3 * k + 1)
     = Some (ComputeReconstructionStep, [tsObjId]) ∧
     all !! (length steps + 3 * k + 2) = Some (CreateOutputStep, [tsObjId])) ∧
  (∀ i args, all !! i = Some (CloseOutputSetsStep, args) →
     i < length steps ∨ i = length steps + 3 * length objIds).
Proof.
  cbn zeta. unfold _insertAllSteps, _insertFunctionStep.
  rewrite insert_series_steps_eq.
  pose proof (series_steps_length objIds) as Hlen.
  unfold Step in *.
  repeat split.
  - rewrite !length_app, Hlen. simpl. lia.
  - rewrite <- app_assoc. by rewrite take_app_length.
  - rewrite lookup_app_r by (rewrite length_app, Hlen; lia).
    rewrite length_app, Hlen.
    by replace (length steps + 3 * length objIds
                - (length steps + 3 * length objIds)) with 0 by lia.
  - destruct (series_steps_lookup objIds k tsObjId H) as (H0 & _ & _).
    rewrite <- app_assoc, lookup_app_r by lia.
    replace (length steps + 3 * k - length steps) with (3 * k) by lia.
    by apply lookup_app_l_Some.
  - destruct (series_steps_lookup objIds k tsObjId H) as (_ & H1 & _).
    rewrite <- app_assoc, lookup_app_r by lia.
    replace (length steps + 3 * k + 1 - length steps) with (3 * k + 1) by lia.
    by apply lookup_app_l_Some.
  - destruct (series_steps_lookup objIds k tsObjId H) as (_ & _ & H2).
    rewrite <- app_assoc, lookup_app_r by lia.
    replace (length steps + 3 * k + 2 - length steps) with (3 * k + 2) by lia.
    by apply lookup_app_l_Some.
  - intros i args Hi.
    destruct (decide (i < length steps)) as [|Hge]; [by left | right].
    rewrite <- app_assoc, lookup_app_r in Hi by lia.
    apply lookup_app_Some in Hi as [Hi | [Hge' Hi]].
    + exfalso. clear Hlen Hge.
      remember (i - length steps) as j eqn:Hj. clear Hj.
      revert j Hi. induction objIds as [|x rest IH]; intros j Hj; [done |].
      simpl in Hj.
      destruct j as [|[|[|j]]]; simpl in Hj; try done. by eapply IH.
    + apply list_lookup_singleton_Some in Hi as [Hi _]. lia.
Qed.

End StepFacts.

Section ReportFacts.
Context {float : Type}.
Implicit Types self : Xcorr.Attributes (float := float).

Lemma is_Some_Some_true {A : Type} (x : A) :
  bool_decide (is_Some (Some x)) = true.
Proof. apply bool_decide_eq_true_2. eauto. Qed.

Lemma is_Some_None_false {A : Type} :
  bool_decide (is_Some (@None A)) = false.
Proof. apply bool_decide_eq_false_2. by intros [? ?]. Qed.

(** The three parts of a report property, once the report is computed:
    when it fails, with what, and what it returns. *)
Ltac report_cases :=
  split; [| split];
  [ split;
    [ intros Hfail; first [discriminate Hfail | done | by left | by right]
    | intros Hcond; first [reflexivity | exfalso; by destruct Hcond as [? | [? ?]]
                          | exfalso; done] ]
  | intros e He; first [discriminate He | by injection He as <-]
  | intros msgs Hmsgs; first
      [ discriminate Hmsgs
      | injection Hmsgs as <-; split;
        [ intros Heq; vm_compute in Heq; discriminate Heq
        | eexists; reflexivity ] ] ].


(** X14: [_methods] of the xcorr protocol raises [AttributeError], and
    nothing else, exactly when the output set is not defined yet;
    otherwise it returns one message that begins with the sentence on the
    transformation matrices.  It never returns the message that the outputs
    are not ready. *)
Theorem X14_methods self :
  (Xcorr._methods self = PyFormat.Fail PyFormat.AttributeError
   ↔ Xcorr.outputSetOfTiltSeries self = None) ∧
  (∀ e, Xcorr._methods self = PyFormat.Fail e → e = PyFormat.AttributeError) ∧
  (∀ msgs, Xcorr._methods self = PyFormat.Done msgs →
     msgs ≠ [Xcorr.not_ready_summary] ∧
     ∃ rest,
       msgs = ["The transformation matrix has been calculated for " +:+ rest]).
Proof.
  destruct self as [input [output|] [interp|]];
    unfold Xcorr._methods, Xcorr.hasattr_interpolated;
    cbn [Xcorr.outputInterpolatedSetOfTiltSeries Xcorr.outputSetOfTiltSeries
         Xcorr.inputSetOfTiltSeries];
    rewrite ?is_Some_Some_true, ?is_Some_None_false;
    cbn [negb Xcorr.getSize mbind PyFormat.outcome_bind];
    report_cases.
Qed.

End ReportFacts.

(** * Line endings *)
Section LineEndingFacts.
Context {float : Type}.
Variable py_float : string → option float.
Variables zero one : float.

Lemma rev_app_spec (s1 s2 : string) :
  String.rev_app s1 s2 = String.rev_app s1 "" +:+ s2.
Proof.
  revert s2. induction s1 as [|a s1 IH]; intros s2; [done |].
  cbn [String.rev_app]. rewrite (IH (String a s2)), (IH (String a "")).
  by rewrite string_app_assoc.
Qed.

Lemma rev_cons (c : ascii) (s : string) :
  String.rev (String c s) = String.rev s +:+ String c "".
Proof. unfold String.rev. cbn [String.rev_app]. apply rev_app_spec. Qed.

(** A final line feed adds no token. *)
Lemma split_go_line_feed cur (s : string) :
  PyStr.split_go cur (s +:+ String PyStr.LF "") = PyStr.split_go cur s.
Proof.
  revert cur. induction s as [|c s IH]; intros cur.
  { by destruct cur. }
  rewrite string_app_cons. cbn [PyStr.split_go].
  destruct (PyStr.isspace c); by rewrite IH.
Qed.

Lemma universal_newlines_no_cr (s : string) :
  LineEndings.no_cr s = true → PyStr.universal_newlines s = s.
Proof.
  induction s as [|c s IH]; [done |]. cbn [LineEndings.no_cr].
  intros [Hc Hs]%andb_true_iff. apply negb_true_iff in Hc.
  cbn [PyStr.universal_newlines]. rewrite Hc. by rewrite IH.
Qed.

Lemma universal_newlines_to_crlf (s : string) :
  LineEndings.no_cr s = true →
  PyStr.universal_newlines (LineEndings.to_crlf s) = s.
Proof.
  induction s as [|c s IH]; [done |]. cbn [LineEndings.no_cr].
  intros [Hc Hs]%andb_true_iff. apply negb_true_iff in Hc.
  cbn [LineEndings.to_crlf].
  destruct (Ascii.eqb c PyStr.LF) eqn:Hlf.
  - apply Ascii.eqb_eq in Hlf as ->.
    cbn [PyStr.universal_newlines]. cbn. by rewrite IH.
  - cbn [PyStr.universal_newlines]. rewrite Hc. by rewrite IH.
Qed.

Lemma no_cr_app (a b : string) :
  LineEndings.no_cr (a +:+ b) = LineEndings.no_cr a && LineEndings.no_cr b.
Proof.
  induction a as [|c a IH]; [done |].
  rewrite string_app_cons. cbn [LineEndings.no_cr]. rewrite IH.
  by rewrite andb_assoc.
Qed.

(** Ending the last line with a line feed changes no token of any line. *)
Lemma readlines_go_line_feed (body : string) (c : ascii) cur :
  c ≠ PyStr.LF →
  Forall2 (λ l1 l2, PyStr.split l1 = PyStr.split l2)
    (PyStr.readlines_go cur (body +:+ String c ""))
    (PyStr.readlines_go cur (body +:+ String c (String PyStr.LF ""))).
Proof.
  intros Hc. apply Ascii.eqb_neq in Hc.
  revert cur. induction body as [|b body IH]; intros cur.
  - cbn [String.append PyStr.readlines_go]. change ("" +:+ String c "")
      with (String c ""). change ("" +:+ String c (String PyStr.LF ""))
      with (String c (String PyStr.LF "")).
    cbn [PyStr.readlines_go]. rewrite Hc. cbn [PyStr.readlines_go].
    rewrite Ascii.eqb_refl. cbn [PyStr.readlines_go PyStr.flush].
    constructor; [| constructor].
    rewrite (rev_cons PyStr.LF). unfold PyStr.split.
    by rewrite split_go_line_feed.
  - rewrite !string_app_cons. cbn [PyStr.readlines_go].
    destruct (Ascii.eqb b PyStr.LF); [constructor; [done |] |]; apply IH.
Qed.

(** X15: a transform file whose last line is not ended by a line feed
    gives the same result, stack or exception, as the file with that line
    feed added (the file holding no carriage return). *)
Theorem X15_final_line_feed mem fs1 f1 fs2 f2 (body : string) (c : ascii) :
  LineEndings.no_cr body = true → c ≠ PyStr.LF → c ≠ PyStr.CR →
  fs1 !! f1 = Some (body +:+ String c "") →
  fs2 !! f2 = Some (body +:+ String c (String PyStr.LF "")) →
  formatTransformationMatrix py_float zero one mem fs1 f1
  = formatTransformationMatrix py_float zero one mem fs2 f2.
Proof.
  intros Hbody Hlf Hcr H1 H2.
  assert (Ascii.eqb c PyStr.CR = false) as Hcr' by (by apply Ascii.eqb_neq).
  rewrite !formatTransformationMatrix_eq.
  rewrite (open_readlines_Some _ _ _ H1), (open_readlines_Some _ _ _ H2).
  cbn [mbind result_bind]. unfold PyStr.readlines.
  rewrite !universal_newlines_no_cr
    by (rewrite no_cr_app, Hbody; cbn; by rewrite Hcr').
  pose proof (readlines_go_line_feed body c "" Hlf) as Hlines.
  rewrite (lines_values_ext py_float _ _
             (Forall2_impl _ _ _ _ Hlines
                (λ l1 l2 H, f_equal (take 6) H))).
  by rewrite (Forall2_length _ _ _ Hlines).
Qed.

(** X16: a transform file written with carriage return, line feed line
    endings gives the same result, stack or exception, as the same file
    written with line feeds. *)
Theorem X16_crlf mem fs1 f1 fs2 f2 (content : string) :
  LineEndings.no_cr content = true →
  fs1 !! f1 = Some content →
  fs2 !! f2 = Some (LineEndings.to_crlf content) →
  formatTransformationMatrix py_float zero one mem fs1 f1
  = formatTransformationMatrix py_float zero one mem fs2 f2.
Proof.
  intros Hcr H1 H2. rewrite !formatTransformationMatrix_eq.
  rewrite (open_readlines_Some _ _ _ H1), (open_readlines_Some _ _ _ H2).
  unfold PyStr.readlines.
  by rewrite universal_newlines_to_crlf, universal_newlines_no_cr.
Qed.

End LineEndingFacts.

(** * The properties on the sample run *)

Lemma X2_witness :
  Run.step Run.fs [Sample.ts2] [] = (Ok (), Run.output) ∧
  ∃ new,
    Run.output = [] ++ new ∧
    Forall2 (built_from PyFloat.of_string PyFloat.zero PyFloat.one Sample.mem
               Run.fs Run._getExtraPath) [Sample.ts2] new.
Proof.
  assert (Run.step Run.fs [Sample.ts2] [] = (Ok (), Run.output)) as Hstep
    by (vm_compute; reflexivity).
  split; [exact Hstep |].
  exact (X2_step_success PyFloat.of_string PyFloat.zero PyFloat.one Sample.mem
           Run.fs Run._getExtraPath [Sample.ts2] [] Run.output Hstep).
Defined.

Lemma X4_witness :
  Run.step Run.fs [Sample.ts2] [] = (Ok (), Run.output) ∧
  Sample.parse Run.fs
    (prexg_path Run._getExtraPath (series_tsId Run.ts_missing))
  = Raise FileNotFoundError ∧
  Run.step Run.fs ([Sample.ts2] ++ Run.ts_missing :: [Sample.ts1]) []
  = (Raise FileNotFoundError, Run.output).
Proof.
  assert (Run.step Run.fs [Sample.ts2] [] = (Ok (), Run.output)) as Hstep
    by (vm_compute; reflexivity).
  assert (Sample.parse Run.fs
            (prexg_path Run._getExtraPath (series_tsId Run.ts_missing))
          = Raise FileNotFoundError) as Hparse
    by (vm_compute; reflexivity).
  split; [exact Hstep |]. split; [exact Hparse |].
  exact (X4_parse_failure_stops PyFloat.of_string PyFloat.zero PyFloat.one
           Sample.mem Run.fs Run._getExtraPath [Sample.ts2] Run.ts_missing
           [Sample.ts1] [] Run.output FileNotFoundError Hstep Hparse).
Defined.

Lemma X5_witness :
  Run.fs !! prexg_path Run._getExtraPath (series_tsId Sample.ts2)
  = Some Sample.prexg ∧
  Forall (good_line PyFloat.of_string) (PyStr.readlines Sample.prexg) ∧
  length (items Sample.ts2) ≤ length (PyStr.readlines Sample.prexg) ∧
  ∃ newTs,
    Run.step Run.fs [Sample.ts2; Sample.ts1] []
    = Run.step Run.fs [Sample.ts1] ([] ++ [newTs]) ∧
    length (items newTs) = length (items Sample.ts2).
Proof.
  assert (Run.fs !! prexg_path Run._getExtraPath (series_tsId Sample.ts2)
          = Some Sample.prexg) as Hfs by (vm_compute; reflexivity).
  assert (Forall (good_line PyFloat.of_string)
                 (PyStr.readlines Sample.prexg)) as Hgood
    by (apply (bool_decide_unpack _); vm_compute; exact I).
  assert (length (items Sample.ts2) ≤ length (PyStr.readlines Sample.prexg))
    as Hlen by (vm_compute; lia).
  split; [exact Hfs |]. split; [exact Hgood |]. split; [exact Hlen |].
  destruct (X5_series_end_to_end PyFloat.of_string PyFloat.zero PyFloat.one
              Sample.mem Run.fs Run._getExtraPath Sample.ts2 [Sample.ts1] []
              Sample.prexg Hfs Hgood Hlen)
    as (newTs & Hstep & _ & _ & Hitems & _).
  exists newTs. split; [exact Hstep | exact Hitems].
Defined.

Lemma X6_witness :
  Run.fs_single !! prexg_path Run._getExtraPath (series_tsId Sample.ts2)
  = Some Sample.single ∧
  Forall (good_line PyFloat.of_string) (PyStr.readlines Sample.single) ∧
  length (PyStr.readlines Sample.single) < length (items Sample.ts2) ∧
  ∃ newTs,
    Run.step Run.fs_single [Sample.ts2; Sample.ts1] []
    = (Raise IndexError, [] ++ [newTs]) ∧
    length (items newTs) = length (PyStr.readlines Sample.single).
Proof.
  assert (Run.fs_single
            !! prexg_path Run._getExtraPath (series_tsId Sample.ts2)
          = Some Sample.single) as Hfs by (vm_compute; reflexivity).
  assert (Forall (good_line PyFloat.of_string)
                 (PyStr.readlines Sample.single)) as Hgood
    by (apply (bool_decide_unpack _); vm_compute; exact I).
  assert (length (PyStr.readlines Sample.single) < length (items Sample.ts2))
    as Hlen by (vm_compute; lia).
  split; [exact Hfs |]. split; [exact Hgood |]. split; [exact Hlen |].
  destruct (X6_short_file_aborts PyFloat.of_string PyFloat.zero PyFloat.one
              Sample.mem Run.fs_single Run._getExtraPath Sample.ts2
              [Sample.ts1] [] Sample.single Hfs Hgood Hlen)
    as (newTs & Hstep & _ & Hitems).
  exists newTs. split; [exact Hstep | exact Hitems].
Defined.

Lemma X8_witness :
  PyFormat.format PyFloatOut.str_float PyFloatOut.format_f
    PyFloatOut.int_float argsXftoxg (paramsXftoxg Run._getExtraPath "TS_01")
  = PyFormat.Done
      ("-input " +:+
       PosixPath.join (Run._getExtraPath "TS_01") ["TS_01" +:+ ".prexf"] +:+
       " -goutput " +:+ prexg_path Run._getExtraPath "TS_01") ∧
  prexg_path Run._getExtraPath "TS_01" = Run.prexg_file.
Proof.
  split; [| vm_compute; reflexivity].
  apply (X8_xftoxg_writes_parsed_file PyFloatOut.str_float
           PyFloatOut.format_f PyFloatOut.int_float Run._getExtraPath
           Run.workingDir "TS_01").
  - intros p. reflexivity.
  - apply (bool_decide_unpack _). vm_compute. exact I.
  - vm_compute. reflexivity.
  - vm_compute. reflexivity.
Defined.

Lemma X10_witness :
  PyFloatOut.int_float (TomoReconstruction.tomoThickness Run.params)
  = PyFormat.Done 100%Z ∧
  Forall (λ s, PyFormat.no_percent s = true)
         (TomoReconstruction.getExcludedViewsIndex Run.tomo_series) ∧
  is_Some (TomoReconstruction.getGpuList Run.params !! 0) ∧
  Run.reconstruction Run.params Run.tomo_series []
  = (PyFormat.Done (),
     [("tilt", Run.tilt_line); ("trimvol", Run.trimvol_line)]).
Proof.
  assert (PyFloatOut.int_float (TomoReconstruction.tomoThickness Run.params)
          = PyFormat.Done 100%Z) as Hint by (vm_compute; reflexivity).
  assert (Forall (λ s, PyFormat.no_percent s = true)
            (TomoReconstruction.getExcludedViewsIndex Run.tomo_series))
    as Hviews by (apply (bool_decide_unpack _); vm_compute; exact I).
  assert (is_Some (TomoReconstruction.getGpuList Run.params !! 0)) as Hgpu
    by (apply (bool_decide_unpack _); vm_compute; exact I).
  split; [exact Hint |]. split; [exact Hviews |]. split; [exact Hgpu |].
  etrans.
  - exact (X10_tilt_command PyFloatOut.str_float PyFloatOut.format_f
             PyFloatOut.int_float Run._getExtraPath Run._getTmpPath
             Run.params Run.tomo_series [] 100%Z Hint Hviews (λ _, Hgpu)).
  - vm_compute. reflexivity.
Defined.


Lemma X15_witness :
  LineEndings.no_cr Run.open_body = true ∧
  Run.fs_open !! Run.prexg_file = Some (Run.open_body +:+ String "0" "") ∧
  Run.fs !! Run.prexg_file
  = Some (Run.open_body +:+ String "0" (String PyStr.LF "")) ∧
  Sample.parse Run.fs_open Run.prexg_file
  = Sample.parse Run.fs Run.prexg_file.
Proof.
  assert (LineEndings.no_cr Run.open_body = true) as Hcr
    by (vm_compute; reflexivity).
  assert (Run.fs_open !! Run.prexg_file
          = Some (Run.open_body +:+ String "0" "")) as H1
    by (vm_compute; reflexivity).
  assert (Run.fs !! Run.prexg_file
          = Some (Run.open_body +:+ String "0" (String PyStr.LF ""))) as H2
    by (vm_compute; reflexivity).
  split; [exact Hcr |]. split; [exact H1 |]. split; [exact H2 |].
  apply (X15_final_line_feed PyFloat.of_string PyFloat.zero PyFloat.one
           Sample.mem Run.fs_open Run.prexg_file Run.fs Run.prexg_file
           Run.open_body "0"%char Hcr); [| | exact H1 | exact H2].
  - apply (bool_decide_unpack _). vm_compute. exact I.
  - apply (bool_decide_unpack _). vm_compute. exact I.
Defined.

Lemma X16_witness :
  LineEndings.no_cr Sample.prexg = true ∧
  Run.fs !! Run.prexg_file = Some Sample.prexg ∧
  Run.fs_crlf !! Run.prexg_file = Some (LineEndings.to_crlf Sample.prexg) ∧
  Sample.parse Run.fs Run.prexg_file
  = Sample.parse Run.fs_crlf Run.prexg_file.
Proof.
  assert (LineEndings.no_cr Sample.prexg = true) as Hcr
    by (vm_compute; reflexivity).
  assert (Run.fs !! Run.prexg_file = Some Sample.prexg) as H1
    by (vm_compute; reflexivity).
  assert (Run.fs_crlf !! Run.prexg_file
          = Some (LineEndings.to_crlf Sample.prexg)) as H2
    by (vm_compute; reflexivity).
  split; [exact Hcr |]. split; [exact H1 |]. split; [exact H2 |].
  exact (X16_crlf PyFloat.of_string PyFloat.zero PyFloat.one Sample.mem
           Run.fs Run.prexg_file Run.fs_crlf Run.prexg_file Sample.prexg
           Hcr H1 H2).
Defined.
